(** * OpenPose [setup.py]: the CMake build adapter and the data installer

    A shallow embedding of [src/setup.py]:
    - [cmake_build_ext] ([finalize_options], [spawn], [build_extensions]),
      which drives CMake through [subprocess.call];
    - [install_data] ([copy_to], [run]), which copies files and whole
      directories into the install tree.

    Python strings are modelled as [string]; a character [c : ascii] stands
    for the code point [nat_of_ascii c].  Exceptions are values of [exn];
    a statement that can raise is a computation in the monad [M], which
    threads the state of the host and of the command object and keeps the
    effects performed before an exception, as Python does. *)

From Stdlib Require Import String Ascii List ZArith Bool Lia DecimalString.
Import ListNotations.
Local Open Scope list_scope.
Local Open Scope string_scope.

(* ================================================================== *)
(** * Part I: definitions *)
(* ================================================================== *)

(** ** Python values used by the script *)

(** The double quote character, code point 34. *)
Definition dquote : ascii := "034"%char.
Definition squote : ascii := "'"%char.
Definition backslash : ascii := "\"%char.

(** [c in chars] for a one-character string [c]. *)
Definition char_in (c : ascii) (chars : list ascii) : bool :=
  existsb (Ascii.eqb c) chars.

(** [token += nextchar] *)
Definition snoc (s : string) (c : ascii) : string := s ++ String c "".

(** [sep.join(items)] *)
Definition str_join (sep : string) (items : list string) : string :=
  String.concat sep items.

(** [s.startswith(p)] and [s.endswith("/")]-style tests. *)
Definition startswith (s p : string) : bool := String.prefix p s.

Fixpoint ends_with_char (s : string) (c : ascii) : bool :=
  match s with
  | "" => false
  | String a "" => Ascii.eqb a c
  | String _ r => ends_with_char r c
  end.

(** [sub in s]: [s] contains [sub] as a contiguous substring. *)
Definition contains (sub s : string) : Prop :=
  exists pre post, s = pre ++ sub ++ post.

(** [str.upper()], exact on the ASCII range (the script applies it to the
    build profile name only). *)
Definition char_upper (c : ascii) : ascii :=
  let n := nat_of_ascii c in
  if (97 <=? n)%nat && (n <=? 122)%nat then ascii_of_nat (n - 32) else c.

Fixpoint str_upper (s : string) : string :=
  match s with
  | "" => ""
  | String c r => String (char_upper c) (str_upper r)
  end.

(** [str(n)] / ["%s" % n] for an integer: decimal, with a leading minus
    sign for negative numbers. *)
Definition py_str_int (n : Z) : string :=
  NilZero.string_of_int (Z.to_int n).

(** Two lowercase hexadecimal digits, as in the escape [\xhh]. *)
Definition hex_digit (n : nat) : ascii :=
  if (n <? 10)%nat then ascii_of_nat (48 + n) else ascii_of_nat (87 + n).

Definition hex2 (c : ascii) : string :=
  let n := nat_of_ascii c in
  String (hex_digit (n / 16)) (String (hex_digit (n mod 16)) "").

(** [str.isprintable] on code points 128..255: the C1 controls, the
    no-break space and the soft hyphen are not printable. *)
Definition latin1_printable (n : nat) : bool :=
  (160 <? n)%nat && negb (n =? 173)%nat.

(** [repr(s)] for a string: single quotes unless the string has a single
    quote and no double quote; backslash, the chosen quote and control
    characters are escaped. *)
Definition repr_quote (s : string) : ascii :=
  let cs := list_ascii_of_string s in
  if char_in squote cs && negb (char_in dquote cs) then dquote else squote.

Definition repr_char (quote c : ascii) : string :=
  let n := nat_of_ascii c in
  if Ascii.eqb c quote || Ascii.eqb c backslash then String backslash (String c "")
  else if (n =? 9)%nat then "\t"
  else if (n =? 10)%nat then "\n"
  else if (n =? 13)%nat then "\r"
  else if (n <? 32)%nat || (n =? 127)%nat then "\x" ++ hex2 c
  else if (n <? 127)%nat then String c ""
  else if latin1_printable n then String c ""
  else "\x" ++ hex2 c.

Fixpoint repr_body (quote : ascii) (s : string) : string :=
  match s with
  | "" => ""
  | String c r => repr_char quote c ++ repr_body quote r
  end.

Definition py_repr_str (s : string) : string :=
  let q := repr_quote s in
  String q (repr_body q s) ++ String q "".

(** [repr(l)] / ["%r" % l] for a list of strings. *)
Definition py_repr_list (l : list string) : string :=
  "[" ++ str_join ", " (map py_repr_str l) ++ "]".

(** ** Exceptions and results *)

Inductive exn : Type :=
| DistutilsExecError (msg : string)
| DistutilsFileError (msg : string)
| ValueError (msg : string)
| OSError (last_arg : string).   (* [exc.args[-1]] *)

Inductive result (A : Type) : Type :=
| Return (a : A)
| Raise (e : exn).
Arguments Return {A} a.
Arguments Raise {A} e.

(** ** [os.path] on a POSIX host *)

Module posixpath.

Definition sep : ascii := "/"%char.

(** [(p[:i], p[i:])] for [i = p.rfind("/") + 1]. *)
Fixpoint rsplit (p : string) : string * string :=
  match p with
  | "" => ("", "")
  | String c r =>
      match rsplit r with
      | ("", t) => if Ascii.eqb c sep then (String c "", t) else ("", String c t)
      | (h, t) => (String c h, t)
      end
  end.

Fixpoint all_sep (s : string) : bool :=
  match s with
  | "" => true
  | String c r => Ascii.eqb c sep && all_sep r
  end.

(** [s.rstrip("/")] *)
Fixpoint rstrip_sep (s : string) : string :=
  match s with
  | "" => ""
  | String c r => if all_sep s then "" else String c (rstrip_sep r)
  end.

Definition isabs (p : string) : bool := startswith p "/".

Definition join (a b : string) : string :=
  if startswith b "/" then b
  else if (a =? "") || ends_with_char a sep then a ++ b
  else a ++ "/" ++ b.

Definition basename (p : string) : string := snd (rsplit p).

Definition dirname (p : string) : string :=
  let head := fst (rsplit p) in
  if negb (head =? "") && negb (all_sep head) then rstrip_sep head else head.

(** [p.split("/")] *)
Fixpoint split_sep (p : string) : list string :=
  match p with
  | "" => [""]
  | String c r =>
      if Ascii.eqb c sep then "" :: split_sep r
      else match split_sep r with
           | x :: xs => String c x :: xs
           | [] => [String c ""]
           end
  end.

(** One round of the loop of [normpath]; [new_comps] is kept reversed. *)
Definition norm_step (rooted : bool) (new_comps : list string)
           (comp : string) : list string :=
  if (comp =? "") || (comp =? ".") then new_comps
  else
    match new_comps with
    | [] => if negb (comp =? "..") || negb rooted then [comp] else []
    | top :: below =>
        if negb (comp =? "..") || (top =? "..") then comp :: new_comps
        else below
    end.

Definition normpath (path : string) : string :=
  if path =? "" then "." else
  let initial_slashes :=
    if startswith path "/" then
      if startswith path "//" && negb (startswith path "///")
      then "//" else "/"
    else "" in
  let comps :=
    rev (fold_left (norm_step (startswith path "/")) (split_sep path) []) in
  let path := initial_slashes ++ str_join "/" comps in
  if path =? "" then "." else path.

(** [abspath] when [os.getcwd()] is [cwd]. *)
Definition abspath (cwd path : string) : string :=
  normpath (if isabs path then path else join cwd path).

End posixpath.

(** ** [shlex.split(s)]

    The POSIX-mode lexer with [whitespace_split = True] and no comment
    characters, as [shlex.split] configures it.  [lex] fuses the character
    loop of [read_token] with the iteration of [list(lex)]: a [break]
    emits the token and starts the next [read_token] with [quoted] and
    [escapedstate] reset, while [state] is kept. *)

Module shlex.

Definition whitespace : list ascii := [" "; "009"; "013"; "010"]%char.
Definition quotes : list ascii := [squote; dquote].
Definition escape : list ascii := [backslash].
Definition escapedquotes : list ascii := [dquote].

(** The values taken by [self.state]: [' '], ['a'], a quote character,
    an escape character. *)
Inductive lexstate : Type :=
| in_space
| in_word
| in_quote (q : ascii)
| in_escape (e : ascii).

(** End of [read_token]: the token is returned, except that an empty
    unquoted token is [None], which ends the iteration. *)
Definition emit (token : string) (quoted : bool)
           (next : result (list string)) : result (list string) :=
  if negb quoted && (token =? "") then Return []
  else match next with
       | Return ts => Return (token :: ts)
       | Raise e => Raise e
       end.

(** [if self.token or (self.posix and quoted)] *)
Definition pending (token : string) (quoted : bool) : bool :=
  negb (token =? "") || quoted.

Fixpoint lex (state : lexstate) (token : string) (quoted : bool)
         (escapedstate : lexstate) (input : list ascii)
  : result (list string) :=
  match input with
  | [] =>
      match state with
      | in_space | in_word => emit token quoted (Return [])
      | in_quote _ => Raise (ValueError "No closing quotation")
      | in_escape _ => Raise (ValueError "No escaped character")
      end
  | c :: rest =>
      match state with
      | in_space =>
          if char_in c whitespace then
            if pending token quoted
            then emit token quoted (lex in_space "" false in_space rest)
            else lex in_space token quoted escapedstate rest
          else if char_in c escape then
            lex (in_escape c) token quoted in_word rest
          else if char_in c quotes then
            lex (in_quote c) token quoted escapedstate rest
          else
            (* a word character, or any other one under whitespace_split *)
            lex in_word (String c "") quoted escapedstate rest
      | in_quote q =>
          if Ascii.eqb c q then
            lex in_word token true escapedstate rest
          else if char_in c escape && char_in q escapedquotes then
            lex (in_escape c) token true (in_quote q) rest
          else
            lex (in_quote q) (snoc token c) true escapedstate rest
      | in_escape e =>
          let token :=
            match escapedstate with
            | in_quote q =>
                if negb (Ascii.eqb c e) && negb (Ascii.eqb c q)
                then snoc token e else token
            | _ => token
            end in
          lex escapedstate (snoc token c) quoted escapedstate rest
      | in_word =>
          if char_in c whitespace then
            if pending token quoted
            then emit token quoted (lex in_space "" false in_space rest)
            else lex in_space token quoted escapedstate rest
          else if char_in c quotes then
            lex (in_quote c) token quoted escapedstate rest
          else if char_in c escape then
            lex (in_escape c) token quoted in_word rest
          else
            lex in_word (snoc token c) quoted escapedstate rest
      end
  end.

Definition split (s : string) : result (list string) :=
  lex in_space "" false in_space (list_ascii_of_string s).

(** [shlex.join], the shell-style inverse of [split] in the same library
    module: each token is quoted by [shlex.quote], then the tokens are
    joined with single spaces. *)

(** The characters that [quote] leaves alone, [[A-Za-z0-9_@%+=:,./-]]. *)
Definition safe_char (c : ascii) : bool :=
  let n := nat_of_ascii c in
  ((97 <=? n)%nat && (n <=? 122)%nat)
  || ((65 <=? n)%nat && (n <=? 90)%nat)
  || ((48 <=? n)%nat && (n <=? 57)%nat)
  || char_in c ["_"; "@"; "%"; "+"; "="; ":"; ","; "."; "/"; "-"]%char.

(** [s.replace("'", "'\"'\"'")]: a single quote leaves the single-quoted
    text, is written between double quotes, and the text is entered
    again. *)
Fixpoint escape_squotes (s : string) : string :=
  match s with
  | "" => ""
  | String c r =>
      if Ascii.eqb c squote then
        String squote
          (String dquote
             (String squote (String dquote (String squote (escape_squotes r)))))
      else String c (escape_squotes r)
  end.

Definition quote (s : string) : string :=
  if s =? "" then "''"
  else if forallb safe_char (list_ascii_of_string s) then s
  else String squote (escape_squotes s) ++ String squote "".

Definition join (split_command : list string) : string :=
  str_join " " (map quote split_command).

End shlex.

(** ** The host and the inherited library code

    What the script reads from its environment and what it calls in the
    Python library and in distutils is a parameter of the model: every
    theorem below holds for all of them.  [OS] is the state of the host
    (file system, processes). *)

Record runtime (OS : Type) : Type := {
  (* os.path, distutils.util *)
  path_join : string -> string -> string;
  path_basename : string -> string;
  path_dirname : string -> string;
  path_abspath : string -> string;
  path_isabs : string -> bool;
  convert_path : string -> result string;
  change_root : string -> string -> string;
  (* platform, sys *)
  platform_system : string;
  platform_architecture0 : string;
  sys_executable : string;
  (* os, subprocess *)
  subprocess_call : list string -> option string -> OS -> result Z * OS;
  os_makedirs : string -> bool -> OS -> result unit * OS;
  os_path_isdir : string -> OS -> bool;
  os_path_isfile : string -> OS -> bool;
  (* methods inherited from build_ext and from Command *)
  get_ext_fullpath : string -> string;
  mkpath : string -> OS -> result unit * OS;
  copy_tree : string -> string -> OS -> result (list string) * OS;
  copy_file : string -> string -> OS -> result (string * bool) * OS
}.
Arguments path_join {OS} _ _ _.
Arguments path_basename {OS} _ _.
Arguments path_dirname {OS} _ _.
Arguments path_abspath {OS} _ _.
Arguments path_isabs {OS} _ _.
Arguments convert_path {OS} _ _.
Arguments change_root {OS} _ _ _.
Arguments platform_system {OS} _.
Arguments platform_architecture0 {OS} _.
Arguments sys_executable {OS} _.
Arguments subprocess_call {OS} _ _ _ _.
Arguments os_makedirs {OS} _ _ _ _.
Arguments os_path_isdir {OS} _ _ _.
Arguments os_path_isfile {OS} _ _ _.
Arguments get_ext_fullpath {OS} _ _.
Arguments mkpath {OS} _ _ _.
Arguments copy_tree {OS} _ _ _ _.
Arguments copy_file {OS} _ _ _ _.

(** What the script does to the outside, in order. *)
Inductive event : Type :=
| LogInfo (line : string)                         (* log.info *)
| Warn (msg : string)                             (* self.warn *)
| Call (cmd : list string) (cwd : option string)  (* subprocess.call *)
| Makedirs (path : string) (exist_ok : bool)      (* os.makedirs *)
| Mkpath (path : string)                          (* self.mkpath *)
| CopyTree (src dst : string)                     (* self.copy_tree *)
| CopyFile (src dst : string).                    (* self.copy_file *)

(** An element of [self.outfiles]: Python lets it be a string or a list. *)
Inductive pyvalue : Type :=
| PyStr (s : string)
| PyList (l : list string).

Record world (OS : Type) : Type := {
  os : OS;
  trace : list event;
  outfiles : list pyvalue     (* install_data.outfiles *)
}.
Arguments os {OS} _.
Arguments trace {OS} _.
Arguments outfiles {OS} _.
Arguments Build_world {OS} _ _ _.

(** ** The command objects *)

(** [CMakeExtension] *)
Record CMakeExtension : Type := {
  ext_name : string;
  cmake_source_dir : string
}.

(** The attributes of [cmake_build_ext] read by [build_extensions];
    [cmake_config_args] and [cmake_build_args] are the lists left by
    [finalize_options]. *)
Record cmake_build_ext : Type := {
  debug : bool;
  dry_run : bool;
  build_temp : string;
  compiler_type : string;
  cmake_config_args : list string;
  cmake_build_args : list string;
  extensions : list CMakeExtension
}.

(** An entry of [data_files]: a string, or a pair of a directory and a
    list of sources. *)
Inductive data_file : Type :=
| DataPath (f : string)
| DataTuple (dir : string) (sources : list string).

Record install_data : Type := {
  install_dir : string;
  root : option string;
  warn_dir : bool;
  data_files : list data_file
}.

(** Truth value of [self.root]: [None] and the empty string are false. *)
Definition truthy (s : option string) : bool :=
  match s with
  | Some r => negb (r =? "")
  | None => false
  end.

(** ** [cmake_build_ext.finalize_options] *)

Definition finalize_options (config_args build_args : string)
           (self : cmake_build_ext) : result cmake_build_ext :=
  match shlex.split config_args with
  | Raise e => Raise e
  | Return cargs =>
      match shlex.split build_args with
      | Raise e => Raise e
      | Return bargs =>
          Return {| debug := debug self;
                    dry_run := dry_run self;
                    build_temp := build_temp self;
                    compiler_type := compiler_type self;
                    cmake_config_args := cargs;
                    cmake_build_args := bargs;
                    extensions := extensions self |}
      end
  end.

Section Script.

Context {OS : Type} (rt : runtime OS).

(** *** The monad of statements *)

Definition M (A : Type) : Type := world OS -> result A * world OS.

Definition ret {A} (a : A) : M A := fun w => (Return a, w).

Definition raise {A} (e : exn) : M A := fun w => (Raise e, w).

Definition bind {A B} (m : M A) (k : A -> M B) : M B :=
  fun w => match m w with
           | (Return a, w') => k a w'
           | (Raise e, w') => (Raise e, w')
           end.

(** [try: m  except ...: handler]; a handler re-raises what its
    [except] clause does not match. *)
Definition try_except {A} (m : M A) (handler : exn -> M A) : M A :=
  fun w => match m w with
           | (Return a, w') => (Return a, w')
           | (Raise e, w') => handler e w'
           end.

Notation "x <- m ;; k" := (bind m (fun x => k))
  (at level 61, m at next level, right associativity).
Notation "m ;; k" := (bind m (fun _ => k))
  (at level 61, right associativity).

Fixpoint for_each {A} (items : list A) (body : A -> M unit) : M unit :=
  match items with
  | [] => ret tt
  | x :: rest => body x ;; for_each rest body
  end.

Definition record (e : event) (w : world OS) : world OS :=
  Build_world (os w) (trace w ++ [e])%list (outfiles w).

(** A library call that acts on the host: the call is recorded, then
    the host answers. *)
Definition perform {A} (e : event) (f : OS -> result A * OS) : M A :=
  fun w => let (r, s) := f (os w) in
           (r, Build_world s (trace w ++ [e])%list (outfiles w)).

Definition query {A} (f : OS -> A) : M A := fun w => (Return (f (os w)), w).

Definition log_info (line : string) : M unit :=
  fun w => (Return tt, record (LogInfo line) w).

Definition warn (msg : string) : M unit :=
  fun w => (Return tt, record (Warn msg) w).

(** [self.outfiles.append(out)] *)
Definition outfiles_append (out : pyvalue) : M unit :=
  fun w => (Return tt,
            Build_world (os w) (trace w) (outfiles w ++ [out])%list).

(** *** [cmake_build_ext.spawn] *)

Definition spawn (cmd : list string) (dry_run : bool) (cwd : option string)
  : M unit :=
  log_info (str_join " " cmd) ;;
  if dry_run then ret tt
  else
    exitcode <-
      try_except (perform (Call cmd cwd) (subprocess_call rt cmd cwd))
        (fun exc =>
           match exc with
           | OSError last_arg =>
               raise (DistutilsExecError
                        ("command " ++ py_repr_list cmd ++ " failed: "
                           ++ last_arg))
           | _ => raise exc
           end) ;;
    if negb (exitcode =? 0)%Z then
      raise (DistutilsExecError
               ("command " ++ py_repr_list cmd ++ " failed with exit code "
                  ++ py_str_int exitcode))
    else ret tt.

(** *** [cmake_build_ext.build_extensions] *)

(** Lines 69-70: the profile chosen from [self.debug] is overwritten. *)
Definition cfg_of (debug : bool) : string :=
  let cfg := if debug then "Debug" else "Release" in
  let cfg := "Release" in
  cfg.

Definition extdir_of (ext : CMakeExtension) : string :=
  path_join rt
    (path_abspath rt (path_dirname rt (get_ext_fullpath rt (ext_name ext))))
    "openpose".

Definition cmake_args_of (self : cmake_build_ext) (ext : CMakeExtension)
  : list string :=
  let extdir := extdir_of ext in
  let cfg := cfg_of (debug self) in
  let cmake_args :=
    [ "-DCMAKE_BUILD_TYPE=" ++ cfg;
      "-DCMAKE_LIBRARY_OUTPUT_DIRECTORY_" ++ str_upper cfg ++ "=" ++ extdir;
      "-DCMAKE_ARCHIVE_OUTPUT_DIRECTORY_" ++ str_upper cfg ++ "="
        ++ build_temp self;
      "-DPYTHON_EXECUTABLE=" ++ sys_executable rt;
      "-DBUILD_PYTHON=ON" ] in
  if platform_system rt =? "Windows" then
    let plat :=
      if platform_architecture0 rt =? "64bit" then "x64" else "Win32" in
    let cmake_args :=
      (cmake_args ++
         [ "-DCMAKE_WINDOWS_EXPORT_ALL_SYMBOLS=TRUE";
           ("-DCMAKE_RUNTIME_OUTPUT_DIRECTORY_" ++ str_upper cfg ++ "="
              ++ extdir)%string ])%list in
    if compiler_type self =? "msvc" then
      (cmake_args ++ [ ("-DCMAKE_GENERATOR_PLATFORM=" ++ plat)%string ])%list
    else cmake_args
  else cmake_args.

(** The argument vectors of the two invocations (lines 108 and 112). *)
Definition config_command (self : cmake_build_ext) (ext : CMakeExtension)
  : list string :=
  (["cmake"; cmake_source_dir ext] ++ cmake_args_of self ext
     ++ cmake_config_args self)%list.

Definition build_command (self : cmake_build_ext) : list string :=
  (["cmake"; "--build"; "."; "--config"; cfg_of (debug self)]
     ++ cmake_build_args self)%list.

(** The body of the loop over [self.extensions]. *)
Definition build_extension (self : cmake_build_ext) (ext : CMakeExtension)
  : M unit :=
  perform (Makedirs (build_temp self) true)
          (os_makedirs rt (build_temp self) true) ;;
  spawn (config_command self ext) (dry_run self) (Some (build_temp self)) ;;
  spawn (build_command self) (dry_run self) (Some (build_temp self)).

(** Lines 60-63: the availability check. *)
Definition check_cmake : M unit :=
  try_except (spawn ["cmake"; "--version"] false None)
    (fun exc =>
       match exc with
       | DistutilsExecError _ =>
           raise (DistutilsExecError "cannot find CMake executable")
       | _ => raise exc
       end).

Definition build_extensions (self : cmake_build_ext) : M unit :=
  check_cmake ;;
  for_each (extensions self) (build_extension self).

(** *** [install_data.copy_to] *)

Definition copy_to (file_or_dir dst_dir : string) : M (pyvalue * bool) :=
  isdir <- query (os_path_isdir rt file_or_dir) ;;
  if isdir : bool then
    let dst := path_join rt dst_dir (path_basename rt file_or_dir) in
    copied <- perform (CopyTree file_or_dir dst)
                      (copy_tree rt file_or_dir dst) ;;
    ret (PyList copied, true)
  else
    isfile <- query (os_path_isfile rt file_or_dir) ;;
    if isfile : bool then
      r <- perform (CopyFile file_or_dir dst_dir)
                   (copy_file rt file_or_dir dst_dir) ;;
      ret (PyStr (fst r), snd r)
    else
      raise (DistutilsFileError
               ("can't copy '" ++ file_or_dir
                  ++ "': doesn't exist or not a regular file or a directory")).

(** *** [install_data.run] *)

Definition lift {A} (r : result A) : M A := fun w => (r, w).

(** Lines 142-146: where a [(dir, sources)] entry is installed. *)
Definition target_dir (self : install_data) (dir : string) : string :=
  if negb (path_isabs rt dir) then path_join rt (install_dir self) dir
  else if truthy (root self) then
    match root self with
    | Some r => change_root rt r dir
    | None => dir
    end
  else dir.

(** The body of the loop over [self.data_files]. *)
Definition install_entry (self : install_data) (f : data_file) : M unit :=
  match f with
  | DataPath f =>
      f <- lift (convert_path rt f) ;;
      (if warn_dir self then
         warn ("setup script did not provide a directory for '" ++ f
                 ++ "' -- installing right in '" ++ install_dir self ++ "'")
       else ret tt) ;;
      r <- copy_to f (install_dir self) ;;
      outfiles_append (fst r)
  | DataTuple f0 f1 =>
      dir <- lift (convert_path rt f0) ;;
      let dir := target_dir self dir in
      perform (Mkpath dir) (mkpath rt dir) ;;
      match f1 with
      | [] => outfiles_append (PyStr dir)
      | _ =>
          for_each f1 (fun data =>
            data <- lift (convert_path rt data) ;;
            r <- copy_to data dir ;;
            outfiles_append (fst r))
      end
  end.

Definition run (self : install_data) : M unit :=
  perform (Mkpath (install_dir self)) (mkpath rt (install_dir self)) ;;
  for_each (data_files self) (install_entry self).

End Script.

(** ** The [setup(...)] call of the script *)

Definition setup_data_files : list data_file :=
  [DataTuple "openpose" ["models"]].

(** [CMakeExtension('openpose')]: the source directory defaults to ['.']. *)
Definition setup_ext_modules (abspath : string -> string)
  : list CMakeExtension :=
  [{| ext_name := "openpose"; cmake_source_dir := abspath "." |}].

(** ** A small POSIX host

    A host to run the definitions on: a file system that is a set of
    directories and a set of files, and a build tool whose behaviour is
    given by [tool]. *)

Module Sample.

Record fsys : Type := {
  dirs : list string;
  files : list string
}.

Definition has (p : string) (l : list string) : bool :=
  existsb (String.eqb p) l.

Definition add (p : string) (l : list string) : list string :=
  if has p l then l else (l ++ [p])%list.

Definition makedirs (p : string) (exist_ok : bool) (fs : fsys)
  : result unit * fsys :=
  if has p (dirs fs) then
    ((if exist_ok then Return tt else Raise (OSError "File exists")), fs)
  else (Return tt, {| dirs := add p (dirs fs); files := files fs |}).

(** The files below the directory [src], renamed below [dst]. *)
Definition below (src dst : string) (fs : fsys) : list string :=
  map (fun f => dst ++ substring (String.length src)
                            (String.length f - String.length src) f)
      (filter (fun f => String.prefix (src ++ "/") f) (files fs)).

Definition sample_copy_tree (src dst : string) (fs : fsys)
  : result (list string) * fsys :=
  if has src (dirs fs) then
    let outputs := below src dst fs in
    (Return outputs,
     {| dirs := add dst (dirs fs);
        files := fold_left (fun l f => add f l) outputs (files fs) |})
  else
    (Raise (DistutilsFileError
              ("cannot copy tree '" ++ src ++ "': not a directory")), fs).

Definition sample_copy_file (src dst : string) (fs : fsys)
  : result (string * bool) * fsys :=
  let target :=
    if has dst (dirs fs)
    then posixpath.join dst (posixpath.basename src) else dst in
  (Return (target, true),
   {| dirs := dirs fs; files := add target (files fs) |}).

Definition posix_change_root (new_root pathname : string) : string :=
  if negb (posixpath.isabs pathname) then posixpath.join new_root pathname
  else posixpath.join new_root
         (substring 1 (String.length pathname - 1) pathname).

Definition host (system : string) (tool : list string -> result Z)
  : runtime fsys :=
  {| path_join := posixpath.join;
     path_basename := posixpath.basename;
     path_dirname := posixpath.dirname;
     path_abspath := posixpath.abspath "/proj";
     path_isabs := posixpath.isabs;
     convert_path := fun p => Return p;
     change_root := posix_change_root;
     platform_system := system;
     platform_architecture0 := "64bit";
     sys_executable := "/usr/bin/python3";
     subprocess_call := fun cmd _ fs => (tool cmd, fs);
     os_makedirs := makedirs;
     os_path_isdir := fun p fs => has p (dirs fs);
     os_path_isfile := fun p fs => has p (files fs);
     get_ext_fullpath := fun name => "build/lib/" ++ name ++ ".so";
     mkpath := fun p fs => makedirs p true fs;
     copy_tree := sample_copy_tree;
     copy_file := sample_copy_file |}.

Definition fs0 : fsys :=
  {| dirs := ["models"; "models/pose"];
     files := ["models/getModels.sh"; "models/pose/pose_deploy.prototxt";
               "README.md"] |}.

Definition w0 : world fsys := Build_world fs0 [] [].

(** A build tool that works, one that is not installed, and one that
    starts and exits with status 2. *)
Definition tool_ok (cmd : list string) : result Z := Return 0%Z.
Definition tool_missing (cmd : list string) : result Z :=
  Raise (OSError "No such file or directory").
Definition tool_exit2 (cmd : list string) : result Z := Return 2%Z.

Definition build (dry : bool) : cmake_build_ext :=
  {| debug := false;
     dry_run := dry;
     build_temp := "build/temp";
     compiler_type := "unix";
     cmake_config_args := [];
     cmake_build_args := [];
     extensions := setup_ext_modules (posixpath.abspath "/proj") |}.

Definition install (files : list data_file) : install_data :=
  {| install_dir := "/dst";
     root := None;
     warn_dir := true;
     data_files := files |}.


End Sample.

(** ** Vocabulary of the properties *)

(** Decidable form of [contains]. *)
Fixpoint containsb (sub s : string) : bool :=
  String.prefix sub s ||
  match s with
  | "" => false
  | String _ r => containsb sub r
  end.

(** The same command object with another value of [self.debug]. *)
Definition set_debug (d : bool) (self : cmake_build_ext) : cmake_build_ext :=
  {| debug := d;
     dry_run := dry_run self;
     build_temp := build_temp self;
     compiler_type := compiler_type self;
     cmake_config_args := cmake_config_args self;
     cmake_build_args := cmake_build_args self;
     extensions := extensions self |}.

(** A path component: a string without separator. *)
Definition no_sep (t : string) : bool :=
  forallb (fun c => negb (Ascii.eqb c posixpath.sep)) (list_ascii_of_string t).

(** The events by which the host is asked to start an external process. *)
Definition is_call (e : event) : bool :=
  match e with
  | Call _ _ => true
  | _ => false
  end.

Definition calls (t : list event) : list event := filter is_call t.

(** An output entry that is a path string. *)
Definition is_path (v : pyvalue) : Prop := exists p, v = PyStr p.

(** A character that the shell-style lexer copies as it is, and a token
    made of such characters only. *)
Definition plain_char (c : ascii) : bool :=
  negb (char_in c shlex.whitespace) && negb (char_in c shlex.quotes)
  && negb (char_in c shlex.escape).

Definition plain_token (t : string) : bool :=
  negb (t =? "") && forallb plain_char (list_ascii_of_string t).

(** The world once [spawn] has logged [cmd] and [subprocess.call] has
    been entered. *)
Definition after_call {OS : Type} (rt : runtime OS) (cmd : list string)
           (cwd : option string) (w : world OS) : world OS :=
  Build_world (snd (subprocess_call rt cmd cwd (os w)))
              (trace w ++ [LogInfo (str_join " " cmd); Call cmd cwd])%list
              (outfiles w).

(** The two messages of [spawn]. *)
Definition launch_failure (cmd : list string) (last_arg : string) : exn :=
  DistutilsExecError
    ("command " ++ py_repr_list cmd ++ " failed: " ++ last_arg).

Definition exit_failure (cmd : list string) (exitcode : Z) : exn :=
  DistutilsExecError
    ("command " ++ py_repr_list cmd ++ " failed with exit code "
       ++ py_str_int exitcode).

(** The answer of [spawn] for each outcome of [subprocess.call]. *)
Definition spawn_outcome (cmd : list string) (r : result Z) : result unit :=
  match r with
  | Return code =>
      if negb (code =? 0)%Z then Raise (exit_failure cmd code) else Return tt
  | Raise (OSError last_arg) => Raise (launch_failure cmd last_arg)
  | Raise e => Raise e
  end.

(** ** Further vocabulary *)

(** A command line of the script that carries the release profile: the
    availability check, a configure command whose first option is
    [-DCMAKE_BUILD_TYPE=Release], or the build command with
    [--config Release]. *)
Definition release_command (self : cmake_build_ext) (cmd : list string)
  : Prop :=
  cmd = ["cmake"; "--version"]
  \/ (exists ext rest,
         In ext (extensions self)
         /\ cmd = "cmake" :: cmake_source_dir ext
                     :: "-DCMAKE_BUILD_TYPE=Release" :: rest)
  \/ cmd = "cmake" :: "--build" :: "." :: "--config" :: "Release"
              :: cmake_build_args self.

(** An event that starts or logs such a command line, or starts and logs
    nothing. *)
Definition release_event (self : cmake_build_ext) (e : event) : Prop :=
  match e with
  | Call cmd _ => release_command self cmd
  | LogInfo line => exists cmd, line = str_join " " cmd
                                /\ release_command self cmd
  | _ => True
  end.

(** [CMakeExtension.__init__] (lines 17-19): no sources, and the source
    directory made absolute. *)
Definition CMakeExtension_init {OS : Type} (rt : runtime OS)
           (name source_dir : string) : CMakeExtension :=
  {| ext_name := name; cmake_source_dir := path_abspath rt source_dir |}.

(** [cmake_build_ext.initialize_options] (lines 31-34): the values of
    [cmake_config_args] and [cmake_build_args] before the command line is
    read. *)
Definition initialize_options : string * string := ("", "").

(** The same command object with another manifest. *)
Definition set_data_files (files : list data_file) (self : install_data)
  : install_data :=
  {| install_dir := install_dir self;
     root := root self;
     warn_dir := warn_dir self;
     data_files := files |}.

(** [w'] is [w] with entries added at the end of the list [proj], each of
    them satisfying [Q]. *)
Definition grows {OS A : Type} (proj : world OS -> list A) (Q : A -> Prop)
           (w w' : world OS) : Prop :=
  exists added, proj w' = (proj w ++ added)%list /\ Forall Q added.

(** What [build_extensions] may do to the outside: log, make the build
    directory, run the availability check, and run the configure and build
    commands of a listed extension in the build directory. *)
Definition build_event {OS : Type} (rt : runtime OS) (self : cmake_build_ext)
           (e : event) : Prop :=
  match e with
  | LogInfo _ => True
  | Makedirs path exist_ok => path = build_temp self /\ exist_ok = true
  | Call cmd cwd =>
      (cmd = ["cmake"; "--version"] /\ cwd = None)
      \/ (cwd = Some (build_temp self)
          /\ (cmd = build_command self
              \/ exists ext, In ext (extensions self)
                             /\ cmd = config_command rt self ext))
  | _ => False
  end.

(** The two processes of one round of the loop of [build_extensions]. *)
Definition round_calls {OS : Type} (rt : runtime OS) (self : cmake_build_ext)
           (ext : CMakeExtension) : list event :=
  [Call (config_command rt self ext) (Some (build_temp self));
   Call (build_command self) (Some (build_temp self))].

(** The number of values a manifest entry adds to [outfiles]. *)
Definition entry_outputs (f : data_file) : nat :=
  match f with
  | DataPath _ => 1
  | DataTuple _ [] => 1
  | DataTuple _ sources => List.length sources
  end.

Definition is_copy_tree (e : event) : bool :=
  match e with
  | CopyTree _ _ => true
  | _ => false
  end.

(** [outfiles] holds path strings as long as no tree has been copied. *)
Definition flat_unless_tree {OS : Type} (w w' : world OS) : Prop :=
  exists tr out,
    trace w' = (trace w ++ tr)%list
    /\ outfiles w' = (outfiles w ++ out)%list
    /\ (existsb is_copy_tree tr = false -> Forall is_path out).

(** A string of whitespace only, and a string without the character [c]. *)
Definition blank (s : string) : bool :=
  forallb (fun c => char_in c shlex.whitespace) (list_ascii_of_string s).

Definition lacks (c : ascii) (s : string) : bool :=
  negb (char_in c (list_ascii_of_string s)).

(** [r] is a normal return. *)
Definition succeeded {A : Type} (r : result A) : bool :=
  match r with
  | Return _ => true
  | Raise _ => false
  end.

(** The number of values a manifest adds to [outfiles] when it is
    installed without error. *)
Definition manifest_outputs (files : list data_file) : nat :=
  list_sum (map entry_outputs files).

(** A statement that adds at most [n] values to [outfiles], and exactly
    [n] when it returns normally. *)
Definition adds_outputs {OS A : Type} (n : nat) (w : world OS)
           (after : result A * world OS) : Prop :=
  exists added,
    outfiles (snd after) = (outfiles w ++ added)%list
    /\ List.length added <= n
    /\ (succeeded (fst after) = true -> List.length added = n).

(* ================================================================== *)
(** * Part II: properties *)
(* ================================================================== *)

(** ** Strings *)

Lemma append_nil_r (s : string) : s ++ "" = s.
Proof. induction s as [|c s IH]; simpl; [reflexivity | now rewrite IH]. Qed.

Lemma append_assoc (a b c : string) : (a ++ b) ++ c = a ++ (b ++ c).
Proof. induction a as [|x a IH]; simpl; [reflexivity | now rewrite IH]. Qed.

Lemma list_ascii_of_string_app (a b : string) :
  list_ascii_of_string (a ++ b)
  = (list_ascii_of_string a ++ list_ascii_of_string b)%list.
Proof. induction a as [|x a IH]; simpl; [reflexivity | now rewrite IH]. Qed.

Lemma prefix_app (p s : string) : String.prefix p (p ++ s) = true.
Proof.
  induction p as [|c p IH]; simpl.
  - now destruct s.
  - destruct (ascii_dec c c) as [_|n]; [exact IH | now destruct n].
Qed.

Lemma prefix_split (p s : string) :
  String.prefix p s = true -> exists post, s = p ++ post.
Proof.
  revert s; induction p as [|c p IH]; intros s H.
  - now exists s.
  - destruct s as [|d s]; simpl in H; [discriminate|].
    destruct (ascii_dec c d) as [->|]; [|discriminate].
    destruct (IH _ H) as [post ->]. now exists post.
Qed.

Lemma contains_intro (pre sub post : string) : contains sub (pre ++ sub ++ post).
Proof. now exists pre, post. Qed.

(** [containsb] decides [contains]. *)
Lemma containsb_spec (sub s : string) :
  containsb sub s = true <-> contains sub s.
Proof.
  split.
  - induction s as [|c s IH]; cbn [containsb]; intros H.
    + rewrite orb_false_r in H. destruct (prefix_split _ _ H) as [post E].
      now exists "", post.
    + apply orb_true_iff in H as [H|H].
      * destruct (prefix_split _ _ H) as [post E]. now exists "", post.
      * destruct (IH H) as (pre & post & ->). now exists (String c pre), post.
  - intros (pre & post & ->).
    induction pre as [|c pre IH].
    + change ("" ++ sub ++ post) with (sub ++ post).
      destruct (sub ++ post) eqn:E; cbn [containsb];
        rewrite <- E, prefix_app; reflexivity.
    + change (String c pre ++ sub ++ post) with (String c (pre ++ sub ++ post)).
      cbn [containsb]. rewrite IH. apply orb_true_r.
Qed.

Lemma not_contains (sub s : string) : containsb sub s = false -> ~ contains sub s.
Proof.
  intros H C. apply containsb_spec in C. rewrite C in H. discriminate.
Qed.

(** ** The statements of [spawn], run *)

Section SpawnFacts.

Context {OS : Type} (rt : runtime OS).

(** With [dry_run] set, [spawn] logs the command line and returns. *)
Lemma spawn_dry (cmd : list string) (cwd : option string) (w : world OS) :
  spawn rt cmd true cwd w = (Return tt, record (LogInfo (str_join " " cmd)) w).
Proof. reflexivity. Qed.

Lemma spawn_exec (cmd : list string) (cwd : option string) (w : world OS) :
  spawn rt cmd false cwd w
  = (spawn_outcome cmd (fst (subprocess_call rt cmd cwd (os w))),
     after_call rt cmd cwd w).
Proof.
  unfold spawn, bind, try_except, perform, log_info, record, after_call,
    spawn_outcome, launch_failure, exit_failure, raise, ret; simpl.
  destruct (subprocess_call rt cmd cwd (os w)) as [[code|e] s]; simpl.
  - rewrite <- app_assoc; simpl. now destruct (code =? 0)%Z.
  - rewrite <- app_assoc; simpl. now destruct e.
Qed.

Lemma check_cmake_run (w : world OS) :
  check_cmake rt w
  = (match spawn_outcome ["cmake"; "--version"]
             (fst (subprocess_call rt ["cmake"; "--version"] None (os w))) with
     | Raise (DistutilsExecError _) =>
         Raise (DistutilsExecError "cannot find CMake executable")
     | r => r
     end,
     after_call rt ["cmake"; "--version"] None w).
Proof.
  unfold check_cmake, try_except. rewrite spawn_exec.
  destruct (spawn_outcome _ _) as [[]|[]]; reflexivity.
Qed.

End SpawnFacts.

(** ** The build profile *)

(** The two command lines: whatever [self.debug] is, the configure command
    has [-DCMAKE_BUILD_TYPE=Release] as its first computed option and the
    build command has [--config Release]; changing the selection changes
    neither command nor anything [build_extensions] does. *)
Theorem release_profile_whatever_debug
        {OS : Type} (rt : runtime OS) (self : cmake_build_ext)
        (ext : CMakeExtension) (d : bool) :
  (exists rest,
      config_command rt (set_debug d self) ext
      = "cmake" :: cmake_source_dir ext :: "-DCMAKE_BUILD_TYPE=Release" :: rest)
  /\ build_command (set_debug d self)
     = "cmake" :: "--build" :: "." :: "--config" :: "Release"
         :: cmake_build_args self
  /\ config_command rt (set_debug d self) ext = config_command rt self ext
  /\ build_command (set_debug d self) = build_command self
  /\ forall w, build_extensions rt (set_debug d self) w
               = build_extensions rt self w.
Proof.
  repeat split.
  - unfold config_command, cmake_args_of, cfg_of; simpl.
    destruct (platform_system rt =? "Windows"); [|eexists; reflexivity].
    destruct (compiler_type self =? "msvc"); eexists; reflexivity.
Qed.

(** ** Platform-specific options *)

(** C2. On every platform other than ['Windows'], no computed configure
    argument is the symbol-export option and none is a
    runtime-output-directory option. *)
Theorem no_windows_options_elsewhere
        {OS : Type} (rt : runtime OS) (self : cmake_build_ext)
        (ext : CMakeExtension) (arg : string) :
  platform_system rt <> "Windows" ->
  In arg (cmake_args_of rt self ext) ->
  arg <> "-DCMAKE_WINDOWS_EXPORT_ALL_SYMBOLS=TRUE"
  /\ startswith arg "-DCMAKE_RUNTIME_OUTPUT_DIRECTORY_" = false.
Proof.
  intros Hsys Hin. apply String.eqb_neq in Hsys.
  unfold cmake_args_of in Hin. rewrite Hsys in Hin.
  unfold cfg_of in Hin; simpl in Hin.
  destruct Hin as [<-|[<-|[<-|[<-|[<-|[]]]]]];
    (split; [discriminate | reflexivity]).
Qed.

Lemma no_windows_options_elsewhere_witness :
  platform_system (Sample.host "Linux" Sample.tool_ok) <> "Windows"
  /\ In "-DCMAKE_LIBRARY_OUTPUT_DIRECTORY_RELEASE=/proj/build/lib/openpose"
        (cmake_args_of (Sample.host "Linux" Sample.tool_ok)
           (Sample.build false)
           {| ext_name := "openpose"; cmake_source_dir := "/proj" |})
  /\ startswith
       "-DCMAKE_LIBRARY_OUTPUT_DIRECTORY_RELEASE=/proj/build/lib/openpose"
       "-DCMAKE_RUNTIME_OUTPUT_DIRECTORY_" = false.
Proof.
  assert (Hsys : platform_system (Sample.host "Linux" Sample.tool_ok)
                 <> "Windows") by (simpl; discriminate).
  assert (Hin : In "-DCMAKE_LIBRARY_OUTPUT_DIRECTORY_RELEASE=/proj/build/lib/openpose"
                   (cmake_args_of (Sample.host "Linux" Sample.tool_ok)
                      (Sample.build false)
                      {| ext_name := "openpose"; cmake_source_dir := "/proj" |}))
    by (vm_compute; right; left; reflexivity).
  split; [exact Hsys|]. split; [exact Hin|].
  exact (proj2 (no_windows_options_elsewhere _ _ _ _ Hsys Hin)).
Defined.

(** ** Failures of the build tool *)

Lemma append_inj_l (r a b : string) : r ++ a = r ++ b -> a = b.
Proof.
  induction r as [|c r IH]; simpl; intros H; [exact H|].
  injection H as H. auto.
Qed.

Lemma failure_messages_differ (cmd : list string) (last_arg : string)
      (exitcode : Z) :
  launch_failure cmd last_arg <> exit_failure cmd exitcode.
Proof.
  unfold launch_failure, exit_failure. intros H.
  assert (E : py_repr_list cmd ++ " failed: " ++ last_arg
              = py_repr_list cmd ++ " failed with exit code "
                  ++ py_str_int exitcode)
    by (apply (append_inj_l "command "); congruence).
  apply append_inj_l in E. discriminate E.
Qed.

(** C3 (as amended). [spawn] separates the two failures by message only:
    a launch failure and a non-zero exit status both raise
    [DistutilsExecError], the first with the text of the OS error and the
    second with the exit status, and the two messages always differ.  For
    the availability check [cmake --version], [build_extensions] replaces
    either of them by the one error "cannot find CMake executable". *)
Theorem spawn_failures_by_message
        {OS : Type} (rt : runtime OS) (self : cmake_build_ext)
        (cmd : list string) (cwd : option string) (w : world OS)
        (last_arg : string) (exitcode : Z) :
  exitcode <> 0%Z ->
  (fst (subprocess_call rt cmd cwd (os w)) = Raise (OSError last_arg) ->
   fst (spawn rt cmd false cwd w) = Raise (launch_failure cmd last_arg))
  /\ (fst (subprocess_call rt cmd cwd (os w)) = Return exitcode ->
      fst (spawn rt cmd false cwd w) = Raise (exit_failure cmd exitcode))
  /\ launch_failure cmd last_arg <> exit_failure cmd exitcode
  /\ (fst (subprocess_call rt ["cmake"; "--version"] None (os w))
        = Raise (OSError last_arg)
      \/ fst (subprocess_call rt ["cmake"; "--version"] None (os w))
        = Return exitcode ->
      fst (build_extensions rt self w)
      = Raise (DistutilsExecError "cannot find CMake executable")).
Proof.
  intros Hcode. apply Z.eqb_neq in Hcode.
  repeat split.
  - intros H. rewrite spawn_exec, H. reflexivity.
  - intros H. rewrite spawn_exec, H. simpl. now rewrite Hcode.
  - apply failure_messages_differ.
  - intros H. unfold build_extensions, bind. rewrite check_cmake_run.
    destruct H as [H|H]; rewrite H; simpl; [|rewrite Hcode]; reflexivity.
Qed.

Lemma spawn_failures_by_message_witness :
  fst (spawn (Sample.host "Linux" Sample.tool_exit2) ["cmake"; "--build"; "."]
         false (Some "build/temp") Sample.w0)
  = Raise (DistutilsExecError
             "command ['cmake', '--build', '.'] failed with exit code 2")
  /\ fst (build_extensions (Sample.host "Linux" Sample.tool_exit2)
            (Sample.build false) Sample.w0)
     = Raise (DistutilsExecError "cannot find CMake executable").
Proof.
  assert (Hcode : 2%Z <> 0%Z) by lia.
  pose proof (spawn_failures_by_message
                (Sample.host "Linux" Sample.tool_exit2) (Sample.build false)
                ["cmake"; "--build"; "."] (Some "build/temp") Sample.w0
                "No such file or directory" 2%Z Hcode) as (_ & Hexit & _ & Hcheck).
  split.
  - exact (Hexit eq_refl).
  - exact (Hcheck (or_intror eq_refl)).
Defined.

(** C3, the claim as stated fails: when [cmake --version] starts and exits
    with status 2, [build_extensions] raises the same error as when the
    tool cannot be started at all, and that error carries neither the
    command nor the exit status. *)
Lemma version_check_hides_exit_status :
  fst (build_extensions (Sample.host "Linux" Sample.tool_exit2)
         (Sample.build false) Sample.w0)
  = fst (build_extensions (Sample.host "Linux" Sample.tool_missing)
           (Sample.build false) Sample.w0)
  /\ fst (build_extensions (Sample.host "Linux" Sample.tool_exit2)
            (Sample.build false) Sample.w0)
     = Raise (DistutilsExecError "cannot find CMake executable")
  /\ ~ contains (py_str_int 2) "cannot find CMake executable"
  /\ ~ contains (py_repr_list ["cmake"; "--version"])
       "cannot find CMake executable".
Proof.
  repeat split; try reflexivity; apply not_contains; reflexivity.
Qed.

(** C4. Whenever the spawned process returns a non-zero exit status,
    [spawn] raises a [DistutilsExecError] whose message contains the
    argument vector as a list literal and the exit status in decimal. *)
Theorem nonzero_exit_message
        {OS : Type} (rt : runtime OS) (cmd : list string)
        (cwd : option string) (w : world OS) (exitcode : Z) :
  fst (subprocess_call rt cmd cwd (os w)) = Return exitcode ->
  exitcode <> 0%Z ->
  exists msg,
    fst (spawn rt cmd false cwd w) = Raise (DistutilsExecError msg)
    /\ contains (py_repr_list cmd) msg
    /\ contains (py_str_int exitcode) msg.
Proof.
  intros Hcall Hcode. apply Z.eqb_neq in Hcode.
  eexists. split; [|split].
  - rewrite spawn_exec, Hcall. simpl. rewrite Hcode. reflexivity.
  - apply (contains_intro "command ").
  - exists ("command " ++ py_repr_list cmd ++ " failed with exit code "), "".
    rewrite append_nil_r, !append_assoc. reflexivity.
Qed.

Lemma nonzero_exit_message_witness :
  exists msg,
    fst (spawn (Sample.host "Linux" Sample.tool_exit2)
           ["cmake"; "--build"; "."; "--config"; "Release"] false
           (Some "build/temp") Sample.w0)
    = Raise (DistutilsExecError msg)
    /\ contains "['cmake', '--build', '.', '--config', 'Release']" msg
    /\ contains "2" msg.
Proof.
  apply (nonzero_exit_message (Sample.host "Linux" Sample.tool_exit2)
           ["cmake"; "--build"; "."; "--config"; "Release"]
           (Some "build/temp") Sample.w0 2%Z).
  - reflexivity.
  - lia.
Defined.

(** ** Extra arguments given as one string *)

Module shlex_facts.

Import shlex.

Lemma plain_char_classes (c : ascii) :
  plain_char c = true ->
  char_in c whitespace = false /\ char_in c quotes = false
  /\ char_in c escape = false.
Proof.
  unfold plain_char. intros H.
  apply andb_true_iff in H as [H He]. apply andb_true_iff in H as [Hw Hq].
  apply negb_true_iff in Hw, Hq, He. auto.
Qed.

Lemma snoc_not_empty (t : string) (c : ascii) : (snoc t c =? "") = false.
Proof. now destruct t. Qed.

(** Inside a word, plain characters are appended to the token. *)
Lemma lex_word_plain (cs : list ascii) :
  forall token quoted esc rest,
    forallb plain_char cs = true ->
    lex in_word token quoted esc (cs ++ rest)
    = lex in_word (token ++ string_of_list_ascii cs) quoted esc rest.
Proof.
  induction cs as [|c cs IH]; intros token quoted esc rest H; simpl in *.
  - now rewrite append_nil_r.
  - apply andb_true_iff in H as [Hc Hcs].
    destruct (plain_char_classes c Hc) as (Hw & Hq & He).
    unfold char_in in Hw, Hq, He. simpl in Hw, Hq, He.
    rewrite Hw, Hq, He, IH by exact Hcs.
    unfold snoc. now rewrite append_assoc.
Qed.

(** A plain token at the start of a word is read as it is. *)
Lemma lex_plain_token (t : string) (rest : list ascii) :
  plain_token t = true ->
  lex in_space "" false in_space (list_ascii_of_string t ++ rest)
  = lex in_word t false in_space rest.
Proof.
  unfold plain_token. intros H. apply andb_true_iff in H as [Hne Hall].
  destruct t as [|c t]; [discriminate|]. simpl in Hall |- *.
  apply andb_true_iff in Hall as [Hc Hcs].
  destruct (plain_char_classes c Hc) as (Hw & Hq & He).
  unfold char_in in Hw, Hq, He. simpl in Hw, Hq, He.
  rewrite Hw, Hq, He, lex_word_plain by exact Hcs.
  now rewrite string_of_list_ascii_of_string.
Qed.

(** Plain tokens joined by single spaces are read back one by one. *)
Lemma split_join_plain (toks : list string) :
  forallb plain_token toks = true ->
  split (str_join " " toks) = Return toks.
Proof.
  unfold split.
  induction toks as [|t toks IH]; intros H; [reflexivity|].
  simpl in H. apply andb_true_iff in H as [Ht Htoks].
  assert (Hne : (t =? "") = false).
  { unfold plain_token in Ht. apply andb_true_iff in Ht as [Ht _].
    now apply negb_true_iff in Ht. }
  destruct toks as [|t' toks].
  - simpl. rewrite <- (app_nil_r (list_ascii_of_string t)).
    rewrite lex_plain_token by exact Ht. simpl.
    unfold emit. now rewrite Hne.
  - change (str_join " " (t :: t' :: toks))
      with (t ++ " " ++ str_join " " (t' :: toks)).
    rewrite list_ascii_of_string_app, lex_plain_token by exact Ht.
    change (list_ascii_of_string (" " ++ str_join " " (t' :: toks)))
      with (" "%char :: list_ascii_of_string (str_join " " (t' :: toks))).
    cbn [lex]. change (char_in " " whitespace) with true. cbv iota.
    unfold pending, emit. rewrite Hne. cbn [negb orb andb].
    now rewrite (IH Htoks).
Qed.

End shlex_facts.

(** The log line of [spawn] joins the arguments with single spaces and
    no quoting.  When every token obtained from the extra-argument string
    is non-empty and free of whitespace, quotes and backslashes,
    tokenizing that line again gives the same token list. *)
Theorem split_join_split_plain (s : string) (toks : list string) :
  shlex.split s = Return toks ->
  forallb plain_token toks = true ->
  shlex.split (str_join " " toks) = Return toks.
Proof.
  intros _ Hplain. now apply shlex_facts.split_join_plain.
Qed.

Lemma split_join_split_plain_witness :
  shlex.split (str_join " " ["-DGPU_MODE=CPU_ONLY"; "-j4"])
  = Return ["-DGPU_MODE=CPU_ONLY"; "-j4"].
Proof.
  apply (split_join_split_plain "  -DGPU_MODE='CPU_ONLY'   -j4 ").
  - reflexivity.
  - reflexivity.
Defined.

(** The log line is not a shell-style join: a quoted substring with an
    embedded space is one token, but in the space-joined line a second
    tokenization would split it in two. *)
Lemma quoted_space_not_preserved :
  let s := "-DX=" ++ String dquote "a b" ++ String dquote "" in
  shlex.split s = Return ["-DX=a b"]
  /\ shlex.split (str_join " " ["-DX=a b"]) = Return ["-DX=a"; "b"]
  /\ ~ (forall toks, shlex.split s = Return toks ->
                     shlex.split (str_join " " toks) = Return toks).
Proof.
  split; [reflexivity|]. split; [reflexivity|].
  intros H. specialize (H ["-DX=a b"] eq_refl). discriminate H.
Qed.

(** The tokens are passed on as they are, one argument each, after the
    computed arguments. *)
Lemma extra_arguments_verbatim
      {OS : Type} (rt : runtime OS) (config_args build_args : string)
      (self self' : cmake_build_ext) (ext : CMakeExtension) :
  finalize_options config_args build_args self = Return self' ->
  exists ctoks btoks,
    shlex.split config_args = Return ctoks
    /\ shlex.split build_args = Return btoks
    /\ config_command rt self' ext
       = ("cmake" :: cmake_source_dir ext :: cmake_args_of rt self' ext
            ++ ctoks)%list
    /\ build_command self'
       = (["cmake"; "--build"; "."; "--config"; "Release"] ++ btoks)%list.
Proof.
  unfold finalize_options. intros H.
  destruct (shlex.split config_args) as [ctoks|]; [|discriminate].
  destruct (shlex.split build_args) as [btoks|]; [|discriminate].
  injection H as <-. exists ctoks, btoks. repeat split.
Qed.

(** ** Paths *)

Module posixpath_facts.

Import posixpath.

Lemma rsplit_no_sep (t : string) : no_sep t = true -> rsplit t = ("", t).
Proof.
  unfold no_sep. induction t as [|c t IH]; simpl; intros H; [reflexivity|].
  apply andb_true_iff in H as [Hc Ht]. apply negb_true_iff in Hc.
  now rewrite (IH Ht), Hc.
Qed.

(** The last component of [x/t] is [t]. *)
Lemma rsplit_app_sep (x t : string) :
  no_sep t = true -> rsplit (x ++ "/" ++ t) = (x ++ "/", t).
Proof.
  intros Ht. induction x as [|a x IH].
  - simpl. now rewrite (rsplit_no_sep t Ht).
  - change (String a x ++ "/" ++ t) with (String a (x ++ "/" ++ t)).
    cbn [rsplit]. rewrite IH. now destruct x.
Qed.


Lemma ends_with_sep_split (a : string) :
  ends_with_char a sep = true -> exists x, a = x ++ "/".
Proof.
  induction a as [|c a IH]; simpl; [discriminate|].
  destruct a as [|d a].
  - intros H. apply Ascii.eqb_eq in H as ->. now exists "".
  - intros H. destruct (IH H) as [x ->]. now exists (String c x).
Qed.

Lemma prefix_char (a c : ascii) (t : string) :
  String.prefix (String a "") (String c t) = Ascii.eqb a c.
Proof.
  cbn [String.prefix]. destruct (ascii_dec a c) as [->|n].
  - rewrite Ascii.eqb_refl. now destruct t.
  - symmetry. now apply Ascii.eqb_neq.
Qed.

Lemma no_sep_not_abs (t : string) : no_sep t = true -> startswith t "/" = false.
Proof.
  destruct t as [|c t]; [reflexivity|].
  unfold no_sep, startswith. rewrite prefix_char. cbn [list_ascii_of_string forallb].
  intros H. apply andb_true_iff in H as [Hc _]. apply negb_true_iff in Hc.
  now rewrite Ascii.eqb_sym.
Qed.

(** [basename(join(d, b)) == b] for a component [b]. *)
Lemma basename_join (d b : string) :
  no_sep b = true -> basename (join d b) = b.
Proof.
  intros Hb. unfold join, basename. rewrite (no_sep_not_abs b Hb).
  destruct (d =? "") eqn:Ed; cbn [orb].
  - apply String.eqb_eq in Ed as ->.
    change ("" ++ b) with b. now rewrite rsplit_no_sep.
  - destruct (ends_with_char d sep) eqn:Es.
    + destruct (ends_with_sep_split d Es) as [x ->].
      rewrite append_assoc. now rewrite rsplit_app_sep.
    + now rewrite rsplit_app_sep.
Qed.

Lemma strip_added_sep (d : string) :
  d <> "" -> ends_with_char d sep = false ->
  all_sep (d ++ "/") = false /\ rstrip_sep (d ++ "/") = d.
Proof.
  induction d as [|c d IH]; intros Hne Hend; [now destruct Hne|].
  destruct d as [|c' d].
  - simpl in Hend |- *. rewrite Hend. simpl. auto.
  - assert (Hd : String c' d <> "") by discriminate.
    destruct (IH Hd Hend) as [Hall Hstrip].
    change (String c (String c' d) ++ "/")
      with (String c (String c' d ++ "/")).
    cbn [all_sep rstrip_sep]. rewrite Hall, Hstrip, andb_false_r. auto.
Qed.

(** [dirname(join(d, b)) == d] for a directory name without a trailing
    separator. *)
Lemma dirname_join (d b : string) :
  no_sep b = true -> d <> "" -> ends_with_char d sep = false ->
  dirname (join d b) = d.
Proof.
  intros Hb Hne Hend. unfold join, dirname.
  rewrite (no_sep_not_abs b Hb), Hend.
  apply String.eqb_neq in Hne as Hne'. rewrite Hne'. cbn [orb].
  rewrite rsplit_app_sep by exact Hb. cbn [fst].
  destruct (strip_added_sep d Hne Hend) as [Hall Hstrip].
  rewrite Hall, Hstrip.
  destruct (d ++ "/") eqn:E; [now destruct d | reflexivity].
Qed.

End posixpath_facts.

(** ** Copying a file or a directory *)






(** ** Installing the manifest *)

(** C7. For an entry [(dir, [])] the resolved target directory is created
    and exactly one entry, its path, is appended to [outfiles]; nothing is
    copied. *)
Theorem empty_source_list_registers_directory
        {OS : Type} (rt : runtime OS) (self : install_data)
        (f0 dir : string) (w : world OS) :
  convert_path rt f0 = Return dir ->
  fst (mkpath rt (target_dir rt self dir) (os w)) = Return tt ->
  install_entry rt self (DataTuple f0 []) w
  = (Return tt,
     Build_world (snd (mkpath rt (target_dir rt self dir) (os w)))
                 (trace w ++ [Mkpath (target_dir rt self dir)])%list
                 (outfiles w ++ [PyStr (target_dir rt self dir)])%list).
Proof.
  intros Hconv Hmk.
  unfold install_entry, bind, lift, perform, outfiles_append. rewrite Hconv.
  destruct (mkpath rt (target_dir rt self dir) (os w)) as [r s].
  simpl in Hmk. subst r. reflexivity.
Qed.

Lemma empty_source_list_registers_directory_witness :
  install_entry (Sample.host "Linux" Sample.tool_ok) (Sample.install [])
    (DataTuple "openpose/cache" []) Sample.w0
  = (Return tt,
     Build_world
       {| Sample.dirs := ["models"; "models/pose"; "/dst/openpose/cache"];
          Sample.files := Sample.files Sample.fs0 |}
       [Mkpath "/dst/openpose/cache"]
       [PyStr "/dst/openpose/cache"]).
Proof.
  rewrite (empty_source_list_registers_directory
             (Sample.host "Linux" Sample.tool_ok) (Sample.install [])
             "openpose/cache" "openpose/cache" Sample.w0 eq_refl eq_refl).
  reflexivity.
Defined.

(** C8, what the code does instead: for a source that is a directory the
    value appended to [outfiles] is the whole list returned by [copy_tree],
    one element that is a list, so that [outfiles] is no longer a list of
    path strings. *)
Theorem directory_source_appends_a_list
        {OS : Type} (rt : runtime OS) (self : install_data)
        (f0 dir data src : string) (w : world OS) (copied : list string) :
  let target := target_dir rt self dir in
  let made := snd (mkpath rt target (os w)) in
  let dst := path_join rt target (path_basename rt src) in
  convert_path rt f0 = Return dir ->
  convert_path rt data = Return src ->
  fst (mkpath rt target (os w)) = Return tt ->
  os_path_isdir rt src made = true ->
  fst (copy_tree rt src dst made) = Return copied ->
  fst (install_entry rt self (DataTuple f0 [data]) w) = Return tt
  /\ outfiles (snd (install_entry rt self (DataTuple f0 [data]) w))
     = (outfiles w ++ [PyList copied])%list
  /\ ~ Forall is_path
       (outfiles (snd (install_entry rt self (DataTuple f0 [data]) w))).
Proof.
  intros target made dst Hconv Hdata Hmk Hdir Hcopy.
  assert (E : install_entry rt self (DataTuple f0 [data]) w
              = (Return tt,
                 Build_world (snd (copy_tree rt src dst made))
                   (trace w ++ [Mkpath target] ++ [CopyTree src dst])%list
                   (outfiles w ++ [PyList copied])%list)).
  { unfold install_entry, for_each, copy_to, lift, outfiles_append, query,
      ret, perform, bind.
    rewrite Hconv. subst dst made target.
    destruct (mkpath rt (target_dir rt self dir) (os w)) as [r s] eqn:Emk.
    simpl in Hmk. subst r. simpl in Hdir, Hcopy |- *.
    rewrite Hdata. simpl. rewrite Hdir. simpl.
    destruct (copy_tree rt src _ s) as [r' s']. simpl in Hcopy. subst r'.
    simpl. now rewrite <- app_assoc. }
  rewrite E. simpl. repeat split.
  intros Hall. apply Forall_app in Hall as [_ Hlast].
  inversion Hlast as [|v l [p Hp] _]. discriminate Hp.
Qed.

Lemma directory_source_appends_a_list_witness :
  outfiles (snd (install_entry (Sample.host "Linux" Sample.tool_ok)
                   (Sample.install setup_data_files)
                   (DataTuple "openpose" ["models"]) Sample.w0))
  = [PyList ["/dst/openpose/models/getModels.sh";
             "/dst/openpose/models/pose/pose_deploy.prototxt"]].
Proof.
  apply (directory_source_appends_a_list
           (Sample.host "Linux" Sample.tool_ok)
           (Sample.install setup_data_files)
           "openpose" "openpose" "models" "models" Sample.w0
           ["/dst/openpose/models/getModels.sh";
            "/dst/openpose/models/pose/pose_deploy.prototxt"]);
    reflexivity.
Defined.

(** The manifest of the script itself, [[('openpose', ['models'])]], run
    on the sample host: [outfiles] is a list holding one list. *)
Lemma setup_manifest_outfiles :
  outfiles (snd (run (Sample.host "Linux" Sample.tool_ok)
                   (Sample.install setup_data_files) Sample.w0))
  = [PyList ["/dst/openpose/models/getModels.sh";
             "/dst/openpose/models/pose/pose_deploy.prototxt"]].
Proof. reflexivity. Qed.

(** ** Dry run *)

Section DryRun.

Context {OS : Type} (rt : runtime OS).

Lemma calls_app (t u : list event) : calls (t ++ u) = (calls t ++ calls u)%list.
Proof. apply filter_app. Qed.

(** One round of the loop when [self.dry_run] is set: the directory is
    made, the two command lines are logged. *)
Lemma build_extension_dry (self : cmake_build_ext) (ext : CMakeExtension)
      (w : world OS) :
  dry_run self = true ->
  build_extension rt self ext w
  = match os_makedirs rt (build_temp self) true (os w) with
    | (Return _, s) =>
        (Return tt,
         Build_world s
           (trace w ++ [Makedirs (build_temp self) true;
                        LogInfo (str_join " " (config_command rt self ext));
                        LogInfo (str_join " " (build_command self))])%list
           (outfiles w))
    | (Raise e, s) =>
        (Raise e,
         Build_world s (trace w ++ [Makedirs (build_temp self) true])%list
                     (outfiles w))
    end.
Proof.
  intros Hdry. unfold build_extension. rewrite Hdry.
  unfold bind at 1. unfold perform.
  destruct (os_makedirs rt (build_temp self) true (os w)) as [[u|e] s];
    [|reflexivity].
  unfold bind. rewrite !spawn_dry. unfold record; simpl.
  now rewrite <- !app_assoc.
Qed.

Lemma loop_dry_no_call (self : cmake_build_ext) (exts : list CMakeExtension) :
  dry_run self = true ->
  forall w, calls (trace (snd (for_each exts (build_extension rt self) w)))
            = calls (trace w).
Proof.
  intros Hdry. induction exts as [|ext exts IH]; intros w; [reflexivity|].
  cbn [for_each]. unfold bind. rewrite (build_extension_dry self ext w Hdry).
  destruct (os_makedirs rt (build_temp self) true (os w)) as [[u|e] s].
  - rewrite IH. simpl. rewrite calls_app. simpl. apply app_nil_r.
  - simpl. rewrite calls_app. simpl. apply app_nil_r.
Qed.

End DryRun.

(** C9 (as amended). With [self.dry_run] set, a [spawn] that is given the
    flag logs the command line and returns without starting a process:
    each round of the loop makes the build directory and logs the
    configure and the build command lines, and the only process that
    [build_extensions] starts is the availability check
    [cmake --version], which is not given the flag. *)
Theorem dry_run_starts_only_version_check
        {OS : Type} (rt : runtime OS) (self : cmake_build_ext) :
  dry_run self = true ->
  (forall cmd cwd w,
      spawn rt cmd (dry_run self) cwd w
      = (Return tt, record (LogInfo (str_join " " cmd)) w))
  /\ (forall ext w,
         fst (os_makedirs rt (build_temp self) true (os w)) = Return tt ->
         build_extension rt self ext w
         = (Return tt,
            Build_world (snd (os_makedirs rt (build_temp self) true (os w)))
              (trace w ++ [Makedirs (build_temp self) true;
                           LogInfo (str_join " " (config_command rt self ext));
                           LogInfo (str_join " " (build_command self))])%list
              (outfiles w)))
  /\ (forall w,
         calls (trace (snd (build_extensions rt self w)))
         = (calls (trace w) ++ [Call ["cmake"; "--version"] None])%list).
Proof.
  intros Hdry. repeat apply conj.
  - intros cmd cwd w. rewrite Hdry. apply spawn_dry.
  - intros ext w Hmk. rewrite (build_extension_dry rt self ext w Hdry).
    destruct (os_makedirs rt (build_temp self) true (os w)) as [[[]|e] s];
      [reflexivity | discriminate Hmk].
  - intros w. unfold build_extensions, bind. rewrite check_cmake_run.
    assert (Hafter : calls (trace (after_call rt ["cmake"; "--version"] None w))
                     = (calls (trace w)
                          ++ [Call ["cmake"; "--version"] None])%list)
      by (unfold after_call; simpl; now rewrite calls_app).
    destruct (spawn_outcome _ _) as [[]|[]]; simpl snd;
      try exact Hafter.
    now rewrite (loop_dry_no_call rt self (extensions self) Hdry).
Qed.

Lemma dry_run_starts_only_version_check_witness :
  calls (trace (snd (build_extensions (Sample.host "Linux" Sample.tool_ok)
                       (Sample.build true) Sample.w0)))
  = [Call ["cmake"; "--version"] None].
Proof.
  exact (proj2 (proj2 (dry_run_starts_only_version_check
                         (Sample.host "Linux" Sample.tool_ok)
                         (Sample.build true) eq_refl)) Sample.w0).
Defined.

(** C9, the claim as stated fails: with [self.dry_run] set, the first
    [spawn] of [build_extensions] still starts an external process. *)
Lemma dry_run_version_check_is_executed :
  dry_run (Sample.build true) = true
  /\ In (Call ["cmake"; "--version"] None)
        (trace (snd (build_extensions (Sample.host "Linux" Sample.tool_ok)
                       (Sample.build true) Sample.w0)))
  /\ ~ (forall e,
           In e (trace (snd (build_extensions
                               (Sample.host "Linux" Sample.tool_ok)
                               (Sample.build true) Sample.w0))) ->
           is_call e = false).
Proof.
  assert (Hin : In (Call ["cmake"; "--version"] None)
                   (trace (snd (build_extensions
                                  (Sample.host "Linux" Sample.tool_ok)
                                  (Sample.build true) Sample.w0))))
    by (vm_compute; right; left; reflexivity).
  split; [reflexivity|]. split; [exact Hin|].
  intros H. specialize (H _ Hin). discriminate H.
Qed.

(** C10. With [self.dry_run] set and a working [cmake], [build_extensions]
    first runs [cmake --version] as a real process, then, for the first
    extension, calls [os.makedirs(build_temp, exist_ok=True)] before it
    logs the configure and build command lines; the host is left as
    [os.makedirs] left it. *)
Theorem dry_run_still_checks_and_makes_directory
        {OS : Type} (rt : runtime OS) (self : cmake_build_ext)
        (ext : CMakeExtension) (rest : list CMakeExtension) (w : world OS) :
  let checked := snd (subprocess_call rt ["cmake"; "--version"] None (os w)) in
  dry_run self = true ->
  extensions self = ext :: rest ->
  fst (subprocess_call rt ["cmake"; "--version"] None (os w)) = Return 0%Z ->
  fst (os_makedirs rt (build_temp self) true checked) = Return tt ->
  build_extensions rt self w
  = for_each rest (build_extension rt self)
      (Build_world (snd (os_makedirs rt (build_temp self) true checked))
         (trace w ++ [LogInfo "cmake --version";
                      Call ["cmake"; "--version"] None;
                      Makedirs (build_temp self) true;
                      LogInfo (str_join " " (config_command rt self ext));
                      LogInfo (str_join " " (build_command self))])%list
         (outfiles w)).
Proof.
  intros checked Hdry Hexts Hcheck Hmk.
  unfold build_extensions, bind. rewrite check_cmake_run, Hcheck, Hexts.
  cbn [spawn_outcome Z.eqb negb for_each]. unfold bind.
  rewrite (build_extension_dry rt self ext _ Hdry).
  unfold after_call. cbn [os trace outfiles]. fold checked.
  destruct (os_makedirs rt (build_temp self) true checked) as [[[]|e] s];
    [|discriminate Hmk].
  cbn [snd]. now rewrite <- app_assoc.
Qed.

Lemma dry_run_still_checks_and_makes_directory_witness :
  build_extensions (Sample.host "Linux" Sample.tool_ok) (Sample.build true)
    Sample.w0
  = (Return tt,
     Build_world
       {| Sample.dirs := ["models"; "models/pose"; "build/temp"];
          Sample.files := Sample.files Sample.fs0 |}
       [LogInfo "cmake --version";
        Call ["cmake"; "--version"] None;
        Makedirs "build/temp" true;
        LogInfo (str_join " "
                   (config_command (Sample.host "Linux" Sample.tool_ok)
                      (Sample.build true)
                      {| ext_name := "openpose"; cmake_source_dir := "/proj" |}));
        LogInfo "cmake --build . --config Release"]
       []).
Proof.
  rewrite (dry_run_still_checks_and_makes_directory
             (Sample.host "Linux" Sample.tool_ok) (Sample.build true)
             {| ext_name := "openpose"; cmake_source_dir := "/proj" |} []
             Sample.w0 eq_refl eq_refl eq_refl eq_refl).
  reflexivity.
Defined.

(** On the sample host a build directory that exists already is accepted,
    since [exist_ok] is passed. *)
Lemma existing_build_directory_accepted :
  fst (build_extensions (Sample.host "Linux" Sample.tool_ok) (Sample.build true)
         (Build_world {| Sample.dirs := ["build/temp"]; Sample.files := [] |}
                      [] []))
  = Return tt.
Proof. reflexivity. Qed.

(* ================================================================== *)
(** * Part III: further properties of the script *)
(* ================================================================== *)

(** ** Loops and sequences of statements *)

Section Sequencing.

Context {OS : Type}.

(** A relation between the world before and the world after that holds
    for no step and composes. *)
Variable R : world OS -> world OS -> Prop.
Hypothesis R_refl : forall w, R w w.
Hypothesis R_trans : forall w1 w2 w3, R w1 w2 -> R w2 w3 -> R w1 w3.

Lemma bind_rel {A B : Type} (m : M A) (k : A -> M B) (w : world OS) :
  R w (snd (m w)) ->
  (forall a w1, R w1 (snd (k a w1))) ->
  R w (snd (bind m k w)).
Proof.
  intros Hm Hk. unfold bind. destruct (m w) as [[a|e] w1]; simpl in *.
  - eapply R_trans; [exact Hm | apply Hk].
  - exact Hm.
Qed.

Lemma for_each_rel {A : Type} (items : list A) (body : A -> M unit) :
  (forall x, In x items -> forall w, R w (snd (body x w))) ->
  forall w, R w (snd (for_each items body w)).
Proof.
  induction items as [|x items IH]; intros Hbody w; [apply R_refl|].
  cbn [for_each]. apply bind_rel.
  - apply Hbody. now left.
  - intros _ w1. apply IH. intros y Hy. apply Hbody. now right.
Qed.

End Sequencing.

Lemma grows_refl {OS A : Type} (proj : world OS -> list A) (Q : A -> Prop)
      (w : world OS) : grows proj Q w w.
Proof. exists []. now rewrite app_nil_r. Qed.

Lemma grows_trans {OS A : Type} (proj : world OS -> list A) (Q : A -> Prop)
      (w1 w2 w3 : world OS) :
  grows proj Q w1 w2 -> grows proj Q w2 w3 -> grows proj Q w1 w3.
Proof.
  intros (a1 & E1 & F1) (a2 & E2 & F2). exists (a1 ++ a2)%list. split.
  - now rewrite E2, E1, app_assoc.
  - apply Forall_app. auto.
Qed.

(** A loop that has raised ignores the items that follow. *)
Lemma for_each_raised {OS A : Type} (items later : list A)
      (body : A -> M unit) (w : world OS) (e : exn) :
  fst (for_each items body w) = Raise e ->
  for_each (items ++ later) body w = for_each items body w.
Proof.
  revert w. induction items as [|x items IH]; intros w H; [discriminate H|].
  cbn [for_each app] in *. unfold bind in *.
  destruct (body x w) as [[u|e'] w1]; [|reflexivity].
  now apply IH.
Qed.

(** ** More on [spawn] and [build_extensions] *)

Section BuildFacts.

Context {OS : Type} (rt : runtime OS).

Lemma spawn_trace (cmd : list string) (dry : bool) (cwd : option string)
      (w : world OS) :
  trace (snd (spawn rt cmd dry cwd w))
  = (trace w ++ LogInfo (str_join " " cmd)
       :: (if dry then [] else [Call cmd cwd]))%list.
Proof.
  destruct dry; [rewrite spawn_dry | rewrite spawn_exec]; reflexivity.
Qed.

Lemma spawn_build_event (self : cmake_build_ext) (cmd : list string)
      (w : world OS) :
  build_event rt self (Call cmd (Some (build_temp self))) ->
  grows trace (build_event rt self) w
        (snd (spawn rt cmd (dry_run self) (Some (build_temp self)) w)).
Proof.
  intros Hcmd. eexists. split; [apply spawn_trace|].
  destruct (dry_run self).
  - apply Forall_cons; [exact I | apply Forall_nil].
  - apply Forall_cons; [exact I|].
    apply Forall_cons; [exact Hcmd | apply Forall_nil].
Qed.

Lemma build_extension_events (self : cmake_build_ext) (ext : CMakeExtension)
      (w : world OS) :
  In ext (extensions self) ->
  grows trace (build_event rt self) w (snd (build_extension rt self ext w)).
Proof.
  intros Hin. unfold build_extension.
  pose proof (grows_trans (@trace OS) (build_event rt self)) as Htrans.
  apply (bind_rel _ Htrans).
  - unfold perform.
    destruct (os_makedirs rt (build_temp self) true (os w)) as [r s].
    exists [Makedirs (build_temp self) true]. split; [reflexivity|].
    apply Forall_cons; [now split | apply Forall_nil].
  - intros _ w1. apply (bind_rel _ Htrans).
    + apply spawn_build_event. right. split; [reflexivity|].
      right. now exists ext.
    + intros _ w2. apply spawn_build_event. right. split; [reflexivity|].
      now left.
Qed.

End BuildFacts.

(** X1. [spawn] returns normally exactly when it is a dry run or
    [subprocess.call] returned the exit status 0. *)
Theorem spawn_returns_iff
        {OS : Type} (rt : runtime OS) (cmd : list string) (dry : bool)
        (cwd : option string) (w : world OS) :
  fst (spawn rt cmd dry cwd w) = Return tt
  <-> dry = true \/ fst (subprocess_call rt cmd cwd (os w)) = Return 0%Z.
Proof.
  destruct dry.
  - rewrite spawn_dry. split; auto.
  - rewrite spawn_exec. cbn [fst].
    destruct (fst (subprocess_call rt cmd cwd (os w))) as [code|e]; simpl.
    + destruct (Z.eqb_spec code 0) as [->|Hne]; simpl.
      * split; auto.
      * split; [discriminate|]. intros [H|H]; [discriminate H|].
        injection H as H. contradiction.
    + split.
      * destruct e; discriminate.
      * intros [H|H]; discriminate H.
Qed.

(** X2. An exception of [subprocess.call] that is not an [OSError], such
    as the [ValueError] raised for an argument with an embedded null
    character, passes through [spawn] as it is: it is not turned into a
    [DistutilsExecError]. *)
Theorem foreign_exception_propagates
        {OS : Type} (rt : runtime OS) (cmd : list string)
        (cwd : option string) (w : world OS) (e : exn) :
  (forall a, e <> OSError a) ->
  fst (subprocess_call rt cmd cwd (os w)) = Raise e ->
  spawn rt cmd false cwd w = (Raise e, after_call rt cmd cwd w).
Proof.
  intros Hos H. rewrite spawn_exec, H. cbn [spawn_outcome].
  destruct e; try reflexivity. now destruct (Hos last_arg).
Qed.

Lemma foreign_exception_propagates_witness :
  let nul := String "000"%char "" in
  let tool := fun cmd : list string =>
                if existsb (containsb nul) cmd
                then Raise (ValueError "embedded null byte")
                else Return 0%Z in
  fst (spawn (Sample.host "Linux" tool)
         ["cmake"; "/proj"; "-DNOTE=a" ++ nul ++ "b"] false
         (Some "build/temp") Sample.w0)
  = Raise (ValueError "embedded null byte").
Proof.
  intros nul tool.
  rewrite (foreign_exception_propagates (Sample.host "Linux" tool)
             ["cmake"; "/proj"; "-DNOTE=a" ++ nul ++ "b"]
             (Some "build/temp") Sample.w0
             (ValueError "embedded null byte")).
  - reflexivity.
  - intros a. discriminate.
  - reflexivity.
Defined.

Section BuildRounds.

Context {OS : Type} (rt : runtime OS).

(** Once [cmake --version] has returned 0, the loop starts. *)
Lemma build_extensions_after_check (self : cmake_build_ext) (w : world OS) :
  fst (subprocess_call rt ["cmake"; "--version"] None (os w)) = Return 0%Z ->
  build_extensions rt self w
  = for_each (extensions self) (build_extension rt self)
      (after_call rt ["cmake"; "--version"] None w).
Proof.
  intros H. unfold build_extensions, bind. now rewrite check_cmake_run, H.
Qed.

(** One round of the loop, not a dry run, up to the configure command. *)
Lemma build_extension_exec (self : cmake_build_ext) (ext : CMakeExtension)
      (w : world OS) :
  dry_run self = false ->
  fst (os_makedirs rt (build_temp self) true (os w)) = Return tt ->
  let made :=
    Build_world (snd (os_makedirs rt (build_temp self) true (os w)))
                (trace w ++ [Makedirs (build_temp self) true])%list
                (outfiles w) in
  let configured :=
    after_call rt (config_command rt self ext) (Some (build_temp self)) made in
  build_extension rt self ext w
  = match spawn_outcome (config_command rt self ext)
            (fst (subprocess_call rt (config_command rt self ext)
                    (Some (build_temp self)) (os made))) with
    | Return _ =>
        (spawn_outcome (build_command self)
           (fst (subprocess_call rt (build_command self)
                   (Some (build_temp self)) (os configured))),
         after_call rt (build_command self) (Some (build_temp self))
                    configured)
    | Raise e => (Raise e, configured)
    end.
Proof.
  intros Hdry Hmk made configured. unfold build_extension. rewrite Hdry.
  unfold bind at 1. unfold perform.
  destruct (os_makedirs rt (build_temp self) true (os w)) as [r s] eqn:E.
  simpl in Hmk. subst r. unfold bind. rewrite spawn_exec.
  subst configured made. cbn [snd os].
  destruct (spawn_outcome (config_command rt self ext) _) as [[]|e];
    [|reflexivity].
  now rewrite spawn_exec.
Qed.

Lemma rounds_all_succeed (self : cmake_build_ext) :
  dry_run self = false ->
  (forall cmd cwd s, fst (subprocess_call rt cmd cwd s) = Return 0%Z) ->
  (forall s, fst (os_makedirs rt (build_temp self) true s) = Return tt) ->
  forall exts w,
    fst (for_each exts (build_extension rt self) w) = Return tt
    /\ calls (trace (snd (for_each exts (build_extension rt self) w)))
       = (calls (trace w) ++ flat_map (round_calls rt self) exts)%list.
Proof.
  intros Hdry Hcall Hmk exts.
  induction exts as [|ext exts IH]; intros w.
  - split; [reflexivity|]. simpl. now rewrite app_nil_r.
  - cbn [for_each]. unfold bind.
    rewrite (build_extension_exec self ext w Hdry (Hmk _)).
    rewrite !Hcall. cbn [spawn_outcome Z.eqb negb].
    destruct (IH (after_call rt (build_command self) (Some (build_temp self))
                    (after_call rt (config_command rt self ext)
                       (Some (build_temp self))
                       (Build_world
                          (snd (os_makedirs rt (build_temp self) true (os w)))
                          (trace w ++ [Makedirs (build_temp self) true])%list
                          (outfiles w))))) as [Hres Htrace].
    split; [exact Hres|]. rewrite Htrace.
    unfold after_call. cbn [trace flat_map round_calls].
    rewrite !calls_app. simpl. rewrite app_nil_r, <- !app_assoc. reflexivity.
Qed.

End BuildRounds.

(** X3. Whatever the host answers, [build_extensions] does nothing to the
    outside but log, create [build_temp], run [cmake --version], and run
    the configure and build commands of its extensions with [build_temp]
    as working directory. *)
Theorem build_extensions_only_cmake
        {OS : Type} (rt : runtime OS) (self : cmake_build_ext) (w : world OS) :
  grows trace (build_event rt self) w (snd (build_extensions rt self w)).
Proof.
  unfold build_extensions.
  apply (bind_rel _ (grows_trans (@trace OS) (build_event rt self))).
  - rewrite check_cmake_run. cbn [snd]. unfold after_call.
    eexists. split; [reflexivity|].
    apply Forall_cons; [exact I|].
    apply Forall_cons; [left; now split | apply Forall_nil].
  - intros _ w1.
    apply (for_each_rel _ (grows_refl (@trace OS) (build_event rt self))
             (grows_trans (@trace OS) (build_event rt self))).
    intros ext Hin w2. now apply build_extension_events.
Qed.

(** X4. When every command exits with status 0 and the build directory
    can be made, [build_extensions] returns normally and the processes it
    starts are the availability check followed, for each extension in
    order, by the configure and then the build command, both run in
    [build_temp]. *)
Theorem all_commands_in_order
        {OS : Type} (rt : runtime OS) (self : cmake_build_ext) (w : world OS) :
  dry_run self = false ->
  (forall cmd cwd s, fst (subprocess_call rt cmd cwd s) = Return 0%Z) ->
  (forall s, fst (os_makedirs rt (build_temp self) true s) = Return tt) ->
  fst (build_extensions rt self w) = Return tt
  /\ calls (trace (snd (build_extensions rt self w)))
     = (calls (trace w)
          ++ Call ["cmake"; "--version"] None
          :: flat_map (round_calls rt self) (extensions self))%list.
Proof.
  intros Hdry Hcall Hmk.
  rewrite (build_extensions_after_check rt self w (Hcall _ _ _)).
  destruct (rounds_all_succeed rt self Hdry Hcall Hmk (extensions self)
              (after_call rt ["cmake"; "--version"] None w)) as [Hres Htrace].
  split; [exact Hres|]. rewrite Htrace. unfold after_call. cbn [trace].
  rewrite calls_app. simpl. now rewrite <- app_assoc.
Qed.

Lemma sample_makedirs_exist_ok (p : string) (fs : Sample.fsys) :
  fst (Sample.makedirs p true fs) = Return tt.
Proof. unfold Sample.makedirs. now destruct (Sample.has p (Sample.dirs fs)). Qed.

Lemma all_commands_in_order_witness :
  calls (trace (snd (build_extensions (Sample.host "Linux" Sample.tool_ok)
                       (Sample.build false) Sample.w0)))
  = [Call ["cmake"; "--version"] None;
     Call (config_command (Sample.host "Linux" Sample.tool_ok)
             (Sample.build false)
             {| ext_name := "openpose"; cmake_source_dir := "/proj" |})
          (Some "build/temp");
     Call ["cmake"; "--build"; "."; "--config"; "Release"]
          (Some "build/temp")].
Proof.
  apply (proj2 (all_commands_in_order (Sample.host "Linux" Sample.tool_ok)
                  (Sample.build false) Sample.w0 eq_refl
                  (fun _ _ _ => eq_refl)
                  (sample_makedirs_exist_ok "build/temp"))).
Defined.

(** X5. When the configure command of the first extension exits with a
    non-zero status, [build_extensions] raises the error of that command;
    the build command is not started and no later extension is touched. *)
Theorem configure_failure_stops_build
        {OS : Type} (rt : runtime OS) (self : cmake_build_ext)
        (ext : CMakeExtension) (rest : list CMakeExtension) (w : world OS)
        (exitcode : Z) :
  let checked := snd (subprocess_call rt ["cmake"; "--version"] None (os w)) in
  let made := snd (os_makedirs rt (build_temp self) true checked) in
  dry_run self = false ->
  extensions self = ext :: rest ->
  fst (subprocess_call rt ["cmake"; "--version"] None (os w)) = Return 0%Z ->
  fst (os_makedirs rt (build_temp self) true checked) = Return tt ->
  fst (subprocess_call rt (config_command rt self ext)
         (Some (build_temp self)) made) = Return exitcode ->
  exitcode <> 0%Z ->
  fst (build_extensions rt self w)
  = Raise (exit_failure (config_command rt self ext) exitcode)
  /\ calls (trace (snd (build_extensions rt self w)))
     = (calls (trace w)
          ++ [Call ["cmake"; "--version"] None;
              Call (config_command rt self ext) (Some (build_temp self))])%list.
Proof.
  intros checked made Hdry Hexts Hcheck Hmk Hcfg Hcode.
  apply Z.eqb_neq in Hcode.
  rewrite (build_extensions_after_check rt self w Hcheck), Hexts.
  cbn [for_each]. unfold bind.
  rewrite (build_extension_exec rt self ext
             (after_call rt ["cmake"; "--version"] None w) Hdry Hmk).
  cbn [after_call os]. fold checked. fold made.
  rewrite Hcfg. cbn [spawn_outcome]. rewrite Hcode. cbn [negb fst snd].
  split; [reflexivity|].
  unfold after_call. cbn [trace]. rewrite !calls_app. simpl.
  now rewrite <- !app_assoc.
Qed.

Lemma configure_failure_stops_build_witness :
  let tool := fun cmd : list string =>
                if (List.length cmd =? 2)%nat then Return 0%Z else Return 2%Z in
  fst (build_extensions (Sample.host "Linux" tool) (Sample.build false)
         Sample.w0)
  = Raise (exit_failure
             (config_command (Sample.host "Linux" tool) (Sample.build false)
                {| ext_name := "openpose"; cmake_source_dir := "/proj" |}) 2).
Proof.
  intros tool.
  refine (proj1 (configure_failure_stops_build (Sample.host "Linux" tool)
                   (Sample.build false)
                   {| ext_name := "openpose"; cmake_source_dir := "/proj" |}
                   [] Sample.w0 2%Z eq_refl eq_refl eq_refl eq_refl eq_refl _)).
  lia.
Defined.

(** X6. When [os.makedirs] raises, [build_extensions] raises the same
    exception, not wrapped, and the configure command of that extension is
    neither logged nor started. *)
Theorem makedirs_failure_propagates
        {OS : Type} (rt : runtime OS) (self : cmake_build_ext)
        (ext : CMakeExtension) (rest : list CMakeExtension) (w : world OS)
        (e : exn) :
  let checked := snd (subprocess_call rt ["cmake"; "--version"] None (os w)) in
  extensions self = ext :: rest ->
  fst (subprocess_call rt ["cmake"; "--version"] None (os w)) = Return 0%Z ->
  fst (os_makedirs rt (build_temp self) true checked) = Raise e ->
  fst (build_extensions rt self w) = Raise e
  /\ trace (snd (build_extensions rt self w))
     = (trace w ++ [LogInfo "cmake --version";
                    Call ["cmake"; "--version"] None;
                    Makedirs (build_temp self) true])%list.
Proof.
  intros checked Hexts Hcheck Hmk.
  rewrite (build_extensions_after_check rt self w Hcheck), Hexts.
  cbn [for_each]. unfold build_extension, bind, perform, after_call.
  cbn [os trace outfiles]. fold checked.
  destruct (os_makedirs rt (build_temp self) true checked) as [r s].
  simpl in Hmk. subst r. cbn [fst snd trace].
  split; [reflexivity|]. now rewrite <- app_assoc.
Qed.

Lemma makedirs_failure_propagates_witness :
  let rt := Sample.host "Linux" Sample.tool_ok in
  let denied :=
    {| path_join := path_join rt; path_basename := path_basename rt;
       path_dirname := path_dirname rt; path_abspath := path_abspath rt;
       path_isabs := path_isabs rt; convert_path := convert_path rt;
       change_root := change_root rt; platform_system := platform_system rt;
       platform_architecture0 := platform_architecture0 rt;
       sys_executable := sys_executable rt;
       subprocess_call := subprocess_call rt;
       os_makedirs := fun _ _ fs => (Raise (OSError "Permission denied"), fs);
       os_path_isdir := os_path_isdir rt; os_path_isfile := os_path_isfile rt;
       get_ext_fullpath := get_ext_fullpath rt; mkpath := mkpath rt;
       copy_tree := copy_tree rt; copy_file := copy_file rt |} in
  fst (build_extensions denied (Sample.build false) Sample.w0)
  = Raise (OSError "Permission denied").
Proof.
  intros rt denied.
  exact (proj1 (makedirs_failure_propagates denied (Sample.build false)
                  {| ext_name := "openpose"; cmake_source_dir := "/proj" |}
                  [] Sample.w0 (OSError "Permission denied")
                  eq_refl eq_refl eq_refl)).
Defined.

(** ** More on the computed arguments *)

(** X7. On ['Windows'] the configure arguments ask for the export of all
    symbols and send the runtime output to the directory that receives
    the library. *)
Theorem windows_export_and_runtime
        {OS : Type} (rt : runtime OS) (self : cmake_build_ext)
        (ext : CMakeExtension) :
  platform_system rt = "Windows" ->
  In "-DCMAKE_WINDOWS_EXPORT_ALL_SYMBOLS=TRUE" (cmake_args_of rt self ext)
  /\ In ("-DCMAKE_RUNTIME_OUTPUT_DIRECTORY_RELEASE=" ++ extdir_of rt ext)
        (cmake_args_of rt self ext)
  /\ In ("-DCMAKE_LIBRARY_OUTPUT_DIRECTORY_RELEASE=" ++ extdir_of rt ext)
        (cmake_args_of rt self ext).
Proof.
  intros Hsys. unfold cmake_args_of, cfg_of. rewrite Hsys.
  change ("Windows" =? "Windows") with true. cbv iota. simpl str_upper.
  destruct (compiler_type self =? "msvc"); simpl; intuition.
Qed.

Lemma windows_export_and_runtime_witness :
  In "-DCMAKE_RUNTIME_OUTPUT_DIRECTORY_RELEASE=/proj/build/lib/openpose"
     (cmake_args_of (Sample.host "Windows" Sample.tool_ok)
        (Sample.build false)
        {| ext_name := "openpose"; cmake_source_dir := "/proj" |}).
Proof.
  exact (proj1 (proj2 (windows_export_and_runtime
                         (Sample.host "Windows" Sample.tool_ok)
                         (Sample.build false)
                         {| ext_name := "openpose";
                            cmake_source_dir := "/proj" |} eq_refl))).
Defined.

(** X8. A configure argument that pins the generator platform is computed
    only on ['Windows'] with the ['msvc'] compiler, where it is [x64] for a
    ['64bit'] interpreter and [Win32] otherwise; in that case it is
    always computed. *)
Theorem generator_platform_only_msvc
        {OS : Type} (rt : runtime OS) (self : cmake_build_ext)
        (ext : CMakeExtension) :
  let plat :=
    if platform_architecture0 rt =? "64bit" then "x64" else "Win32" in
  (forall arg,
      In arg (cmake_args_of rt self ext) ->
      startswith arg "-DCMAKE_GENERATOR_PLATFORM=" = true ->
      platform_system rt = "Windows" /\ compiler_type self = "msvc"
      /\ arg = "-DCMAKE_GENERATOR_PLATFORM=" ++ plat)
  /\ (platform_system rt = "Windows" -> compiler_type self = "msvc" ->
      In ("-DCMAKE_GENERATOR_PLATFORM=" ++ plat) (cmake_args_of rt self ext)).
Proof.
  intros plat. unfold cmake_args_of, cfg_of. simpl str_upper. split.
  - intros arg Hin Hpre.
    destruct (String.eqb_spec (platform_system rt) "Windows") as [Hsys|Hsys];
      [destruct (String.eqb_spec (compiler_type self) "msvc") as [Hc|Hc]|];
      simpl in Hin;
      repeat (destruct Hin as [<-|Hin]; [try discriminate Hpre|]);
      try contradiction.
    auto.
  - intros Hsys Hc. rewrite Hsys, Hc. simpl. intuition.
Qed.

Lemma generator_platform_only_msvc_witness :
  let msvc :=
    {| debug := false; dry_run := false; build_temp := "build/temp";
       compiler_type := "msvc"; cmake_config_args := [];
       cmake_build_args := []; extensions := [] |} in
  In "-DCMAKE_GENERATOR_PLATFORM=x64"
     (cmake_args_of (Sample.host "Windows" Sample.tool_ok) msvc
        {| ext_name := "openpose"; cmake_source_dir := "/proj" |}).
Proof.
  intros msvc.
  exact (proj2 (generator_platform_only_msvc
                  (Sample.host "Windows" Sample.tool_ok) msvc
                  {| ext_name := "openpose"; cmake_source_dir := "/proj" |})
           eq_refl eq_refl).
Defined.

(** X9. The tokens of the two option strings are passed on as they are,
    one argument each and in order, after the computed arguments, which
    do not depend on them: the user's options come last on both command
    lines. *)
Theorem user_arguments_come_last
        {OS : Type} (rt : runtime OS) (config_args build_args : string)
        (self self' : cmake_build_ext) (ext : CMakeExtension) :
  finalize_options config_args build_args self = Return self' ->
  exists ctoks btoks,
    shlex.split config_args = Return ctoks
    /\ shlex.split build_args = Return btoks
    /\ config_command rt self' ext
       = ("cmake" :: cmake_source_dir ext :: cmake_args_of rt self ext
            ++ ctoks)%list
    /\ build_command self'
       = (["cmake"; "--build"; "."; "--config"; "Release"] ++ btoks)%list
    /\ extensions self' = extensions self
    /\ dry_run self' = dry_run self
    /\ build_temp self' = build_temp self.
Proof.
  unfold finalize_options. intros H.
  destruct (shlex.split config_args) as [ctoks|]; [|discriminate].
  destruct (shlex.split build_args) as [btoks|]; [|discriminate].
  injection H as <-. exists ctoks, btoks. repeat split.
Qed.

Lemma user_arguments_come_last_witness :
  exists self',
    finalize_options "-DGPU_MODE=CPU_ONLY '-DNOTE=a b'" "-- -j4"
      (Sample.build false) = Return self'
    /\ config_command (Sample.host "Linux" Sample.tool_ok) self'
         {| ext_name := "openpose"; cmake_source_dir := "/proj" |}
       = ["cmake"; "/proj"; "-DCMAKE_BUILD_TYPE=Release";
          "-DCMAKE_LIBRARY_OUTPUT_DIRECTORY_RELEASE=/proj/build/lib/openpose";
          "-DCMAKE_ARCHIVE_OUTPUT_DIRECTORY_RELEASE=build/temp";
          "-DPYTHON_EXECUTABLE=/usr/bin/python3"; "-DBUILD_PYTHON=ON";
          "-DGPU_MODE=CPU_ONLY"; "-DNOTE=a b"]
    /\ build_command self'
       = ["cmake"; "--build"; "."; "--config"; "Release"; "--"; "-j4"].
Proof.
  eexists. split; [reflexivity|].
  destruct (user_arguments_come_last (Sample.host "Linux" Sample.tool_ok)
              "-DGPU_MODE=CPU_ONLY '-DNOTE=a b'" "-- -j4" (Sample.build false)
              _ {| ext_name := "openpose"; cmake_source_dir := "/proj" |}
              eq_refl) as (ctoks & btoks & Hc & Hb & Hcfg & Hbuild & _).
  injection Hc as <-. injection Hb as <-.
  split; [exact Hcfg | exact Hbuild].
Defined.

(** ** More on the option strings *)

Module shlex_more.

Import shlex.

Lemma lacks_cons (q c : ascii) (s : string) :
  lacks q (String c s) = true -> Ascii.eqb c q = false /\ lacks q s = true.
Proof.
  unfold lacks, char_in. simpl. intros H.
  apply negb_true_iff, orb_false_iff in H as [Hc Hs].
  split; [now rewrite Ascii.eqb_sym | now apply negb_true_iff].
Qed.

(** Between single quotes every character is taken as it is. *)
Lemma lex_single_quoted (body : string) :
  lacks squote body = true ->
  forall token quoted esc rest,
    lex (in_quote squote) token quoted esc
        (list_ascii_of_string body ++ squote :: rest)
    = lex in_word (token ++ body) true esc rest.
Proof.
  induction body as [|c body IH]; intros H token quoted esc rest.
  - simpl. now rewrite append_nil_r.
  - destruct (lacks_cons _ _ _ H) as [Hc Hbody].
    cbn [list_ascii_of_string app lex]. rewrite Hc.
    change (char_in squote escapedquotes) with false.
    rewrite andb_false_r, (IH Hbody). unfold snoc.
    now rewrite append_assoc.
Qed.

(** A single quote that is not closed. *)
Lemma lex_single_quote_open (body : string) :
  lacks squote body = true ->
  forall token quoted esc,
    lex (in_quote squote) token quoted esc (list_ascii_of_string body)
    = Raise (ValueError "No closing quotation").
Proof.
  induction body as [|c body IH]; intros H token quoted esc; [reflexivity|].
  destruct (lacks_cons _ _ _ H) as [Hc Hbody].
  cbn [list_ascii_of_string lex]. rewrite Hc.
  change (char_in squote escapedquotes) with false.
  now rewrite andb_false_r, (IH Hbody).
Qed.

Lemma split_single_quoted (body : string) :
  lacks squote body = true ->
  split (String squote body ++ String squote "") = Return [body].
Proof.
  intros H. unfold split.
  change (String squote body ++ String squote "")
    with (String squote (body ++ String squote "")).
  cbn [list_ascii_of_string]. rewrite list_ascii_of_string_app.
  cbn [lex]. change (char_in squote whitespace) with false.
  change (char_in squote escape) with false.
  change (char_in squote quotes) with true. cbv iota.
  change (list_ascii_of_string (String squote "")) with [squote].
  now rewrite (lex_single_quoted body H).
Qed.

Lemma split_single_quote_open (body : string) :
  lacks squote body = true ->
  split (String squote body) = Raise (ValueError "No closing quotation").
Proof.
  intros H. unfold split. cbn [list_ascii_of_string lex].
  change (char_in squote whitespace) with false.
  change (char_in squote escape) with false.
  change (char_in squote quotes) with true. cbv iota.
  apply (lex_single_quote_open body H).
Qed.

Lemma split_blank (s : string) : blank s = true -> split s = Return [].
Proof.
  unfold blank, split. induction s as [|c s IH]; intros H; [reflexivity|].
  cbn [list_ascii_of_string forallb] in H.
  apply andb_true_iff in H as [Hc Hs].
  cbn [list_ascii_of_string lex]. rewrite Hc. cbn [pending String.eqb negb orb].
  now apply IH.
Qed.

Lemma pending_emit (token : string) (quoted : bool)
      (next : result (list string)) :
  pending token quoted = true ->
  emit token quoted next
  = match next with
    | Return ts => Return (token :: ts)
    | Raise e => Raise e
    end.
Proof.
  unfold pending, emit. destruct quoted, (token =? ""); simpl;
    intros H; (discriminate H || reflexivity).
Qed.

(** Text without quote and backslash leaves the lexer between or inside
    words; an error met afterwards is the error of the whole input. *)
Lemma lex_words_then_raise (e : exn) (rest : list ascii) :
  (forall token quoted esc,
      lex in_space token quoted esc rest = Raise e
      /\ lex in_word token quoted esc rest = Raise e) ->
  forall before,
    lacks squote before = true -> lacks dquote before = true ->
    lacks backslash before = true ->
    forall token quoted esc,
      lex in_space token quoted esc (list_ascii_of_string before ++ rest)
      = Raise e
      /\ lex in_word token quoted esc (list_ascii_of_string before ++ rest)
         = Raise e.
Proof.
  intros Hrest. induction before as [|c before IH];
    intros Hs Hd Hb token quoted esc; [apply Hrest|].
  destruct (lacks_cons _ _ _ Hs) as [Hcs Hs'].
  destruct (lacks_cons _ _ _ Hd) as [Hcd Hd'].
  destruct (lacks_cons _ _ _ Hb) as [Hcb Hb'].
  specialize (IH Hs' Hd' Hb').
  assert (Hq : char_in c quotes = false)
    by (unfold char_in; simpl; now rewrite Hcs, Hcd).
  assert (He : char_in c escape = false)
    by (unfold char_in; simpl; now rewrite Hcb).
  cbn [list_ascii_of_string app lex]. rewrite Hq, He.
  destruct (char_in c whitespace); [destruct (pending token quoted) eqn:Hp|].
  - rewrite (pending_emit _ _ _ Hp), (proj1 (IH "" false in_space)). auto.
  - split; apply IH.
  - split; apply IH.
Qed.

Lemma split_open_after_words (before body : string) :
  lacks squote before = true -> lacks dquote before = true ->
  lacks backslash before = true -> lacks squote body = true ->
  split (before ++ String squote body)
  = Raise (ValueError "No closing quotation").
Proof.
  intros Hs Hd Hb Hbody. unfold split. rewrite list_ascii_of_string_app.
  apply lex_words_then_raise; try assumption.
  intros token quoted esc. cbn [list_ascii_of_string lex].
  change (char_in squote whitespace) with false.
  change (char_in squote escape) with false.
  change (char_in squote quotes) with true. cbv iota.
  split; apply (lex_single_quote_open body Hbody).
Qed.

End shlex_more.

(** X10. An option string that is one single-quoted text without a single
    quote inside becomes exactly one extra configure argument, the text
    as it is, whatever spaces, double quotes or backslashes it holds. *)
Theorem single_quoted_is_one_argument
        (body build_args : string) (self : cmake_build_ext)
        (btoks : list string) :
  lacks squote body = true ->
  shlex.split build_args = Return btoks ->
  exists self',
    finalize_options (String squote body ++ String squote "") build_args self
    = Return self'
    /\ cmake_config_args self' = [body]
    /\ cmake_build_args self' = btoks.
Proof.
  intros Hbody Hb. unfold finalize_options.
  rewrite (shlex_more.split_single_quoted body Hbody), Hb.
  eexists. split; [reflexivity|]. split; reflexivity.
Qed.

Lemma single_quoted_is_one_argument_witness :
  exists self',
    finalize_options "'-DNOTE=a \ b'" "" (Sample.build false) = Return self'
    /\ cmake_config_args self' = ["-DNOTE=a \ b"]
    /\ cmake_build_args self' = [].
Proof.
  apply (single_quoted_is_one_argument "-DNOTE=a \ b" "" (Sample.build false)
           []); reflexivity.
Defined.

(** X11. Option strings made of whitespace only, such as the empty
    strings that [initialize_options] sets, add no argument: the configure
    command is [cmake], the source directory and the computed arguments,
    the build command is [cmake --build . --config Release]. *)
Theorem blank_options_add_nothing
        {OS : Type} (rt : runtime OS) (config_args build_args : string)
        (self : cmake_build_ext) (ext : CMakeExtension) :
  blank config_args = true ->
  blank build_args = true ->
  exists self',
    finalize_options config_args build_args self = Return self'
    /\ config_command rt self' ext
       = "cmake" :: cmake_source_dir ext :: cmake_args_of rt self ext
    /\ build_command self'
       = ["cmake"; "--build"; "."; "--config"; "Release"].
Proof.
  intros Hc Hb. unfold finalize_options.
  rewrite (shlex_more.split_blank _ Hc), (shlex_more.split_blank _ Hb).
  eexists. split; [reflexivity|]. split; [|reflexivity].
  unfold config_command. cbn [cmake_config_args].
  rewrite app_nil_r. reflexivity.
Qed.

Lemma blank_options_add_nothing_witness :
  exists self',
    finalize_options (fst initialize_options) (snd initialize_options)
      (Sample.build false) = Return self'
    /\ config_command (Sample.host "Linux" Sample.tool_ok) self'
         {| ext_name := "openpose"; cmake_source_dir := "/proj" |}
       = "cmake" :: "/proj"
           :: cmake_args_of (Sample.host "Linux" Sample.tool_ok)
                (Sample.build false)
                {| ext_name := "openpose"; cmake_source_dir := "/proj" |}
    /\ build_command self'
       = ["cmake"; "--build"; "."; "--config"; "Release"].
Proof.
  apply (blank_options_add_nothing (Sample.host "Linux" Sample.tool_ok)
           (fst initialize_options) (snd initialize_options)
           (Sample.build false)
           {| ext_name := "openpose"; cmake_source_dir := "/proj" |});
    reflexivity.
Defined.

(** X12. A configure option string in which a single quote is opened
    after text that holds no quote and no backslash, and is never closed,
    makes [finalize_options] raise [ValueError], whatever the build option
    string is. *)
Theorem open_quote_is_rejected
        (before body build_args : string) (self : cmake_build_ext) :
  lacks squote before = true ->
  lacks dquote before = true ->
  lacks backslash before = true ->
  lacks squote body = true ->
  finalize_options (before ++ String squote body) build_args self
  = Raise (ValueError "No closing quotation").
Proof.
  intros Hs Hd Hb Hbody. unfold finalize_options.
  now rewrite (shlex_more.split_open_after_words before body Hs Hd Hb Hbody).
Qed.

Lemma open_quote_is_rejected_witness :
  finalize_options "-DA=1 '-DNOTE=a b" "'also open" (Sample.build false)
  = Raise (ValueError "No closing quotation").
Proof.
  apply (open_quote_is_rejected "-DA=1 " "-DNOTE=a b" "'also open"
           (Sample.build false)); reflexivity.
Defined.

(** ** More on paths *)

Module posixpath_more.

Import posixpath.

Lemma isabs_head (p : string) :
  isabs p = true -> exists r, p = String "/" r.
Proof.
  unfold isabs, startswith. destruct p as [|c r]; [discriminate|].
  rewrite posixpath_facts.prefix_char. intros H.
  apply Ascii.eqb_eq in H as <-. now exists r.
Qed.

Lemma isabs_cons (r : string) : isabs (String "/" r) = true.
Proof.
  unfold isabs, startswith. rewrite posixpath_facts.prefix_char.
  apply Ascii.eqb_refl.
Qed.

Lemma normpath_not_empty (p : string) : normpath p <> "".
Proof.
  unfold normpath. destruct (p =? ""); [discriminate|].
  match goal with |- (if ?x =? "" then _ else _) <> _ =>
    destruct (String.eqb_spec x "") as [E|E] end;
    [discriminate | exact E].
Qed.

Lemma normpath_abs (p : string) : isabs p = true -> isabs (normpath p) = true.
Proof.
  intros H. destruct (isabs_head p H) as [r ->]. unfold normpath.
  change (String "/" r =? "") with false. cbv iota.
  change (startswith (String "/" r) "/") with (isabs (String "/" r)).
  rewrite isabs_cons.
  destruct (startswith (String "/" r) "//"
            && negb (startswith (String "/" r) "///")); cbn [append];
    change (String "/" ?x =? "") with false; apply isabs_cons.
Qed.

Lemma join_abs (a b : string) : isabs a = true -> isabs (join a b) = true.
Proof.
  intros H. unfold join. destruct (startswith b "/") eqn:Hb; [exact Hb|].
  destruct (isabs_head a H) as [r ->].
  destruct ((String "/" r =? "") || ends_with_char (String "/" r) sep);
    apply isabs_cons.
Qed.

Lemma abspath_abs (cwd p : string) :
  isabs cwd = true -> isabs (abspath cwd p) = true.
Proof.
  intros H. unfold abspath. apply normpath_abs.
  destruct (isabs p) eqn:Hp; [exact Hp | now apply join_abs].
Qed.

Lemma abspath_not_empty (cwd p : string) : abspath cwd p <> "".
Proof. apply normpath_not_empty. Qed.

(** A component joined to a directory comes after a separator. *)
Lemma join_component (a b : string) :
  a <> "" -> startswith b "/" = false ->
  exists d, join a b = d ++ "/" ++ b.
Proof.
  intros Ha Hb. unfold join. rewrite Hb.
  apply String.eqb_neq in Ha. rewrite Ha. cbn [orb].
  destruct (ends_with_char a sep) eqn:Hend.
  - destruct (posixpath_facts.ends_with_sep_split a Hend) as [x ->].
    exists x. now rewrite append_assoc.
  - now exists a.
Qed.

End posixpath_more.

(** X13. On a POSIX host started in an absolute working directory, the
    source directory of a [CMakeExtension] is absolute whatever
    [source_dir] was given, so the configure command, which runs in
    [build_temp], still names the right directory. *)
Theorem source_dir_is_absolute
        {OS : Type} (rt : runtime OS) (cwd name source_dir : string)
        (self : cmake_build_ext) :
  path_abspath rt = posixpath.abspath cwd ->
  posixpath.isabs cwd = true ->
  exists src rest,
    config_command rt self (CMakeExtension_init rt name source_dir)
    = "cmake" :: src :: rest
    /\ src = posixpath.abspath cwd source_dir
    /\ posixpath.isabs src = true.
Proof.
  intros Habs Hcwd. unfold config_command, CMakeExtension_init.
  cbn [cmake_source_dir]. rewrite Habs. eexists. eexists.
  split; [reflexivity|]. split; [reflexivity|].
  now apply posixpath_more.abspath_abs.
Qed.

Lemma source_dir_is_absolute_witness :
  exists src rest,
    config_command (Sample.host "Linux" Sample.tool_ok) (Sample.build false)
      (CMakeExtension_init (Sample.host "Linux" Sample.tool_ok) "openpose"
         "../openpose/./3rdparty")
    = "cmake" :: src :: rest
    /\ src = posixpath.abspath "/proj" "../openpose/./3rdparty"
    /\ posixpath.isabs src = true.
Proof.
  apply (source_dir_is_absolute (Sample.host "Linux" Sample.tool_ok) "/proj");
    reflexivity.
Defined.

(** X14. On a POSIX host started in an absolute working directory, the
    directory that receives the library is an absolute path whose last
    component is [openpose]. *)
Theorem extdir_ends_with_openpose
        {OS : Type} (rt : runtime OS) (cwd : string) (ext : CMakeExtension) :
  path_join rt = posixpath.join ->
  path_abspath rt = posixpath.abspath cwd ->
  posixpath.isabs cwd = true ->
  posixpath.isabs (extdir_of rt ext) = true
  /\ posixpath.basename (extdir_of rt ext) = "openpose"
  /\ exists d, extdir_of rt ext = d ++ "/openpose".
Proof.
  intros Hjoin Habs Hcwd. unfold extdir_of. rewrite Hjoin, Habs.
  split; [|split].
  - apply posixpath_more.join_abs. now apply posixpath_more.abspath_abs.
  - now apply posixpath_facts.basename_join.
  - apply posixpath_more.join_component;
      [apply posixpath_more.abspath_not_empty | reflexivity].
Qed.

Lemma extdir_ends_with_openpose_witness :
  posixpath.isabs
    (extdir_of (Sample.host "Linux" Sample.tool_ok)
       {| ext_name := "openpose"; cmake_source_dir := "/proj" |}) = true
  /\ posixpath.basename
       (extdir_of (Sample.host "Linux" Sample.tool_ok)
          {| ext_name := "openpose"; cmake_source_dir := "/proj" |})
     = "openpose"
  /\ exists d,
      extdir_of (Sample.host "Linux" Sample.tool_ok)
        {| ext_name := "openpose"; cmake_source_dir := "/proj" |}
      = d ++ "/openpose".
Proof.
  apply (extdir_ends_with_openpose (Sample.host "Linux" Sample.tool_ok)
           "/proj"); reflexivity.
Defined.

(** ** More on [install_data.run] *)

Section InstallFacts.

Context {OS : Type} (rt : runtime OS).

Lemma adds_bind {A B : Type} (n1 n2 : nat) (m : M A) (k : A -> M B)
      (w : world OS) :
  adds_outputs n1 w (m w) ->
  (forall a w1, adds_outputs n2 w1 (k a w1)) ->
  adds_outputs (n1 + n2) w (bind m k w).
Proof.
  intros (a1 & E1 & L1 & S1) Hk. unfold bind.
  destruct (m w) as [[a|e] w1]; cbn [fst snd succeeded] in *.
  - destruct (Hk a w1) as (a2 & E2 & L2 & S2).
    exists (a1 ++ a2)%list. rewrite E2, E1, <- app_assoc, length_app.
    split; [reflexivity|]. split; [lia|].
    intros H. rewrite (S1 eq_refl), (S2 H). reflexivity.
  - exists a1. split; [exact E1|]. split; [lia | discriminate].
Qed.

Lemma adds_nothing {A : Type} (m : M A) (w : world OS) :
  outfiles (snd (m w)) = outfiles w -> adds_outputs 0 w (m w).
Proof.
  intros H. exists []. rewrite app_nil_r. split; [exact H|]. split; auto.
Qed.

Lemma perform_outfiles {A : Type} (e : event) (f : OS -> result A * OS)
      (w : world OS) : outfiles (snd (perform e f w)) = outfiles w.
Proof. unfold perform. now destruct (f (os w)). Qed.

Lemma copy_to_outfiles (src dst : string) (w : world OS) :
  outfiles (snd (copy_to rt src dst w)) = outfiles w.
Proof.
  unfold copy_to, bind, query, perform, ret, raise.
  destruct (os_path_isdir rt src (os w)).
  - now destruct (copy_tree rt src _ (os w)) as [[]].
  - cbn [os]. destruct (os_path_isfile rt src (os w)).
    + now destruct (copy_file rt src dst (os w)) as [[]].
    + reflexivity.
Qed.

Lemma adds_append (v : pyvalue) (w : world OS) :
  adds_outputs 1 w (outfiles_append v w).
Proof.
  exists [v]. split; [reflexivity|]. split; [apply le_n | reflexivity].
Qed.

(** Copying one source and recording the result adds one value. *)
Lemma adds_copy (src dst : string) (w : world OS) :
  adds_outputs 1 w
    (bind (copy_to rt src dst) (fun r => outfiles_append (fst r)) w).
Proof.
  apply (adds_bind 0 1).
  - apply adds_nothing, copy_to_outfiles.
  - intros r w1. apply adds_append.
Qed.

Lemma adds_sources (dir : string) (sources : list string) :
  forall w,
    adds_outputs (List.length sources) w
      (for_each sources
         (fun data =>
            bind (lift (convert_path rt data))
                 (fun data =>
                    bind (copy_to rt data dir)
                         (fun r => outfiles_append (fst r)))) w).
Proof.
  induction sources as [|data sources IH]; intros w.
  - apply (adds_nothing (ret tt)). reflexivity.
  - cbn [for_each List.length]. apply (adds_bind 1 (List.length sources)).
    + apply (adds_bind 0 1).
      * apply adds_nothing. unfold lift. reflexivity.
      * intros src w1. apply adds_copy.
    + intros _ w1. apply IH.
Qed.

Lemma adds_entry (self : install_data) (f : data_file) (w : world OS) :
  adds_outputs (entry_outputs f) w (install_entry rt self f w).
Proof.
  destruct f as [f|f0 f1]; unfold install_entry.
  - apply (adds_bind 0 1).
    + apply adds_nothing. reflexivity.
    + intros src w1. apply (adds_bind 0 1).
      * apply adds_nothing. now destruct (warn_dir self).
      * intros _ w2. apply adds_copy.
  - apply (adds_bind 0 (entry_outputs (DataTuple f0 f1))).
    + apply adds_nothing. reflexivity.
    + intros dir w1. apply (adds_bind 0 (entry_outputs (DataTuple f0 f1))).
      * apply adds_nothing, perform_outfiles.
      * intros _ w2. destruct f1 as [|data f1].
        -- apply adds_append.
        -- apply (adds_sources _ (data :: f1)).
Qed.

Lemma adds_manifest (self : install_data) (files : list data_file) :
  forall w,
    adds_outputs (manifest_outputs files) w
      (for_each files (install_entry rt self) w).
Proof.
  induction files as [|f files IH]; intros w.
  - apply (adds_nothing (ret tt)). reflexivity.
  - cbn [for_each]. unfold manifest_outputs. cbn [map list_sum].
    apply adds_bind; [apply adds_entry | intros _ w1; apply IH].
Qed.

End InstallFacts.

(** X15. [run] never removes or changes a value already in [outfiles]: it
    appends at most one value per source of the manifest (one for a bare
    path, one for an empty source list), and exactly that many when it
    returns normally. *)
Theorem run_appends_one_value_per_source
        {OS : Type} (rt : runtime OS) (self : install_data) (w : world OS) :
  exists added,
    outfiles (snd (run rt self w)) = (outfiles w ++ added)%list
    /\ List.length added <= manifest_outputs (data_files self)
    /\ (fst (run rt self w) = Return tt ->
        List.length added = manifest_outputs (data_files self)).
Proof.
  assert (H : adds_outputs (0 + manifest_outputs (data_files self)) w
                (run rt self w)).
  { unfold run. apply adds_bind.
    - apply adds_nothing, perform_outfiles.
    - intros _ w1. apply adds_manifest. }
  destruct H as (added & E & L & S). exists added.
  split; [exact E|]. split; [exact L|].
  intros Hret. apply S. now rewrite Hret.
Qed.

Lemma run_appends_one_value_per_source_witness :
  List.length
    (outfiles (snd (run (Sample.host "Linux" Sample.tool_ok)
                      (Sample.install [DataPath "README.md";
                                       DataTuple "empty" [];
                                       DataTuple "openpose"
                                         ["models"; "README.md"]])
                      Sample.w0)))
  = 4.
Proof.
  destruct (run_appends_one_value_per_source
              (Sample.host "Linux" Sample.tool_ok)
              (Sample.install [DataPath "README.md"; DataTuple "empty" [];
                               DataTuple "openpose" ["models"; "README.md"]])
              Sample.w0) as (added & E & _ & S).
  rewrite E, length_app, (S eq_refl). reflexivity.
Defined.

Section FlatOutputs.

Context {OS : Type} (rt : runtime OS).

Lemma flat_refl (w : world OS) : flat_unless_tree w w.
Proof.
  exists [], []. rewrite !app_nil_r. repeat split. intros _. apply Forall_nil.
Qed.

Lemma flat_trans (w1 w2 w3 : world OS) :
  flat_unless_tree w1 w2 -> flat_unless_tree w2 w3 -> flat_unless_tree w1 w3.
Proof.
  intros (t1 & o1 & T1 & O1 & F1) (t2 & o2 & T2 & O2 & F2).
  exists (t1 ++ t2)%list, (o1 ++ o2)%list.
  rewrite T2, T1, O2, O1, !app_assoc. repeat split.
  rewrite existsb_app. intros H. apply orb_false_iff in H as [H1 H2].
  apply Forall_app. auto.
Qed.

(** A statement that leaves [outfiles] alone and adds one event that is
    not the copy of a tree. *)
Lemma flat_event (e : event) (w w' : world OS) :
  is_copy_tree e = false ->
  trace w' = (trace w ++ [e])%list -> outfiles w' = outfiles w ->
  flat_unless_tree w w'.
Proof.
  intros He Ht Ho. exists [e], []. rewrite app_nil_r.
  split; [exact Ht|]. split; [exact Ho|]. intros _. apply Forall_nil.
Qed.

Lemma flat_perform {A : Type} (e : event) (f : OS -> result A * OS)
      (w : world OS) :
  is_copy_tree e = false -> flat_unless_tree w (snd (perform e f w)).
Proof.
  intros He. apply (flat_event e); [exact He | |];
    unfold perform; now destruct (f (os w)).
Qed.

(** Copying one source and recording the result: the value recorded is a
    path string unless a tree was copied. *)
Lemma flat_copy (src dst : string) (w : world OS) :
  flat_unless_tree w
    (snd (bind (copy_to rt src dst) (fun r => outfiles_append (fst r)) w)).
Proof.
  unfold copy_to, bind, query, perform, ret, raise, outfiles_append.
  destruct (os_path_isdir rt src (os w)).
  - destruct (copy_tree rt src _ (os w)) as [[copied|e] s]; cbn.
    + eexists [_], [_]. repeat split. discriminate.
    + eexists [_], []. rewrite app_nil_r. repeat split. discriminate.
  - cbn [os]. destruct (os_path_isfile rt src (os w)).
    + destruct (copy_file rt src dst (os w)) as [[r|e] s]; cbn.
      * eexists [_], [_]. repeat split. intros _.
        apply Forall_cons; [now eexists | apply Forall_nil].
      * eexists [_], []. rewrite app_nil_r. repeat split.
        intros _. apply Forall_nil.
    + apply flat_refl.
Qed.

Lemma flat_entry (self : install_data) (f : data_file) (w : world OS) :
  flat_unless_tree w (snd (install_entry rt self f w)).
Proof.
  destruct f as [f|f0 f1]; unfold install_entry.
  - apply (bind_rel _ flat_trans); [apply flat_refl|]. intros src w1.
    apply (bind_rel _ flat_trans).
    + destruct (warn_dir self); [|apply flat_refl].
      eexists [_], []. rewrite app_nil_r.
      split; [reflexivity|]. split; [reflexivity|]. intros _. apply Forall_nil.
    + intros _ w2. apply flat_copy.
  - apply (bind_rel _ flat_trans); [apply flat_refl|]. intros dir w1.
    apply (bind_rel _ flat_trans); [now apply flat_perform|]. intros _ w2.
    destruct f1 as [|data f1].
    + exists [], [PyStr (target_dir rt self dir)]. rewrite app_nil_r.
      repeat split. intros _.
      apply Forall_cons; [now eexists | apply Forall_nil].
    + apply (for_each_rel _ flat_refl flat_trans). intros x _ w3.
      apply (bind_rel _ flat_trans); [apply flat_refl|]. intros src w4.
      apply flat_copy.
Qed.

End FlatOutputs.

(** X16. [run] starts by making [install_dir], and every value it appends
    to [outfiles] is a path string as long as it copies no tree: only a
    source that is a directory can put a list into [outfiles]. *)
Theorem outfiles_flat_without_trees
        {OS : Type} (rt : runtime OS) (self : install_data) (w : world OS) :
  exists tr out,
    trace (snd (run rt self w))
    = (trace w ++ Mkpath (install_dir self) :: tr)%list
    /\ outfiles (snd (run rt self w)) = (outfiles w ++ out)%list
    /\ (existsb is_copy_tree tr = false -> Forall is_path out).
Proof.
  unfold run, bind, perform.
  destruct (mkpath rt (install_dir self) (os w)) as [[[]|e] s].
  - destruct (for_each_rel _ (@flat_refl OS) (@flat_trans OS)
                (data_files self) (install_entry rt self)
                (fun f _ w1 => flat_entry rt self f w1)
                (Build_world s (trace w ++ [Mkpath (install_dir self)])%list
                             (outfiles w)))
      as (tr & out & T & O & F).
    exists tr, out. cbn [trace outfiles] in T, O. cbv beta iota.
    rewrite T, O, <- app_assoc. repeat split. exact F.
  - exists [], []. cbn [snd trace outfiles]. rewrite app_nil_r.
    repeat split. intros _. apply Forall_nil.
Qed.

Lemma outfiles_flat_without_trees_witness :
  Forall is_path
    (outfiles (snd (run (Sample.host "Linux" Sample.tool_ok)
                      (Sample.install [DataPath "README.md";
                                       DataTuple "empty" []])
                      Sample.w0))).
Proof.
  destruct (outfiles_flat_without_trees
              (Sample.host "Linux" Sample.tool_ok)
              (Sample.install [DataPath "README.md"; DataTuple "empty" []])
              Sample.w0) as (tr & out & T & O & F).
  rewrite O. apply F.
  apply (app_inv_head [Mkpath "/dst"]) in T. now subst tr.
Defined.

(** X17. Once an entry of the manifest has made [run] raise, the entries
    after it are not looked at: adding entries at the end of a manifest
    that fails changes neither the error nor anything done before it. *)
Theorem entries_after_failure_ignored
        {OS : Type} (rt : runtime OS) (self : install_data)
        (files later : list data_file) (w : world OS) (e : exn) :
  fst (run rt (set_data_files files self) w) = Raise e ->
  run rt (set_data_files (files ++ later) self) w
  = run rt (set_data_files files self) w.
Proof.
  unfold run, bind. cbn [install_dir data_files set_data_files].
  destruct (perform (Mkpath (install_dir self))
              (mkpath rt (install_dir self)) w) as [[[]|e'] w1];
    [|reflexivity].
  intros H.
  change (install_entry rt (set_data_files (files ++ later) self))
    with (install_entry rt (set_data_files files self)).
  now apply (for_each_raised files later _ w1 e).
Qed.

Lemma entries_after_failure_ignored_witness :
  run (Sample.host "Linux" Sample.tool_ok)
    (Sample.install [DataTuple "openpose" ["missing"]; DataPath "README.md"])
    Sample.w0
  = run (Sample.host "Linux" Sample.tool_ok)
      (Sample.install [DataTuple "openpose" ["missing"]]) Sample.w0.
Proof.
  apply (entries_after_failure_ignored (Sample.host "Linux" Sample.tool_ok)
           (Sample.install []) [DataTuple "openpose" ["missing"]]
           [DataPath "README.md"] Sample.w0
           (DistutilsFileError
              "can't copy 'missing': doesn't exist or not a regular file or a directory")).
  reflexivity.
Defined.

(** X18. When the first source of an entry [(dir, sources)] is neither a
    directory nor a regular file, the entry raises a [DistutilsFileError]
    naming the source after the target directory has been created;
    nothing is copied, nothing is added to [outfiles], and the sources
    after it are not looked at. *)
Theorem missing_source_fails_after_mkpath
        {OS : Type} (rt : runtime OS) (self : install_data)
        (f0 dir data src : string) (more : list string) (w : world OS) :
  let target := target_dir rt self dir in
  let made := snd (mkpath rt target (os w)) in
  convert_path rt f0 = Return dir ->
  convert_path rt data = Return src ->
  fst (mkpath rt target (os w)) = Return tt ->
  os_path_isdir rt src made = false ->
  os_path_isfile rt src made = false ->
  exists msg,
    install_entry rt self (DataTuple f0 (data :: more)) w
    = (Raise (DistutilsFileError msg),
       Build_world made (trace w ++ [Mkpath target])%list (outfiles w))
    /\ contains src msg.
Proof.
  intros target made Hconv Hdata Hmk Hdir Hfile. subst made target.
  unfold install_entry, for_each, copy_to, lift, outfiles_append, query,
    ret, raise, perform, bind.
  rewrite Hconv.
  destruct (mkpath rt (target_dir rt self dir) (os w)) as [r s].
  simpl in Hmk, Hdir, Hfile. subst r. rewrite Hdata. cbn [os].
  rewrite Hdir. cbn [os]. rewrite Hfile. eexists. split; [reflexivity|].
  apply (contains_intro "can't copy '").
Qed.

Lemma missing_source_fails_after_mkpath_witness :
  exists msg,
    install_entry (Sample.host "Linux" Sample.tool_ok) (Sample.install [])
      (DataTuple "openpose" ["missing"; "models"]) Sample.w0
    = (Raise (DistutilsFileError msg),
       Build_world
         {| Sample.dirs := ["models"; "models/pose"; "/dst/openpose"];
            Sample.files := Sample.files Sample.fs0 |}
         [Mkpath "/dst/openpose"] [])
    /\ contains "missing" msg.
Proof.
  apply (missing_source_fails_after_mkpath
           (Sample.host "Linux" Sample.tool_ok) (Sample.install [])
           "openpose" "openpose" "missing" "missing" ["models"] Sample.w0);
    reflexivity.
Defined.

(** X19. A bare path that is a regular file is copied into [install_dir]
    itself and the destination returned by [copy_file] is added to
    [outfiles]; the warning about the missing directory is issued exactly
    when [warn_dir] is set, before the copy, and does not stop it. *)
Theorem bare_path_goes_to_install_dir
        {OS : Type} (rt : runtime OS) (self : install_data)
        (f src dest : string) (copied : bool) (w : world OS) :
  convert_path rt f = Return src ->
  os_path_isdir rt src (os w) = false ->
  os_path_isfile rt src (os w) = true ->
  fst (copy_file rt src (install_dir self) (os w)) = Return (dest, copied) ->
  install_entry rt self (DataPath f) w
  = (Return tt,
     Build_world
       (snd (copy_file rt src (install_dir self) (os w)))
       (trace w
          ++ (if warn_dir self
              then [Warn ("setup script did not provide a directory for '"
                            ++ src ++ "' -- installing right in '"
                            ++ install_dir self ++ "'")]
              else [])
          ++ [CopyFile src (install_dir self)])%list
       (outfiles w ++ [PyStr dest])%list).
Proof.
  intros Hconv Hdir Hfile Hcopy.
  unfold install_entry, copy_to, lift, outfiles_append, query, ret, warn,
    record, perform, bind.
  rewrite Hconv.
  destruct (warn_dir self); cbn [os trace outfiles];
    rewrite Hdir; cbn [os]; rewrite Hfile; cbv beta iota; cbn [os];
    destruct (copy_file rt src (install_dir self) (os w)) as [r s];
    simpl in Hcopy; subst r; cbn [fst snd os trace outfiles];
    rewrite <- ?app_assoc; reflexivity.
Qed.

Lemma bare_path_goes_to_install_dir_witness :
  outfiles
    (snd (install_entry (Sample.host "Linux" Sample.tool_ok)
            (Sample.install []) (DataPath "README.md")
            (Build_world {| Sample.dirs := ["/dst"];
                            Sample.files := ["README.md"] |} [] [])))
  = [PyStr "/dst/README.md"].
Proof.
  rewrite (bare_path_goes_to_install_dir
             (Sample.host "Linux" Sample.tool_ok) (Sample.install [])
             "README.md" "README.md" "/dst/README.md" true
             (Build_world {| Sample.dirs := ["/dst"];
                             Sample.files := ["README.md"] |} [] [])
             eq_refl eq_refl eq_refl eq_refl).
  reflexivity.
Defined.

(** X20. On a POSIX host a relative target directory is resolved below
    [install_dir], whatever [self.root] is; an absolute one is left alone
    when [self.root] is [None] or empty and is handed to [change_root]
    otherwise. *)
Theorem target_directory_resolution
        {OS : Type} (rt : runtime OS) (self : install_data) (dir : string) :
  path_isabs rt = posixpath.isabs ->
  path_join rt = posixpath.join ->
  (posixpath.isabs dir = false ->
   startswith (target_dir rt self dir) (install_dir self) = true
   /\ forall other, install_dir other = install_dir self ->
                    target_dir rt other dir = target_dir rt self dir)
  /\ (posixpath.isabs dir = true -> truthy (root self) = false ->
      target_dir rt self dir = dir)
  /\ (posixpath.isabs dir = true ->
      forall r, root self = Some r -> r <> "" ->
                target_dir rt self dir = change_root rt r dir).
Proof.
  intros Habs Hjoin. unfold target_dir. rewrite Habs, Hjoin.
  split; [|split].
  - intros Hrel. rewrite Hrel. cbn [negb]. split.
    + unfold posixpath.join, startswith.
      change (String.prefix "/" dir) with (posixpath.isabs dir).
      rewrite Hrel.
      destruct ((install_dir self =? "")
                || ends_with_char (install_dir self) posixpath.sep);
        apply prefix_app.
    + intros other Hother. now rewrite Hother.
  - intros Hdir Hroot. now rewrite Hdir, Hroot.
  - intros Hdir r Hroot Hne. rewrite Hdir, Hroot. cbn [negb truthy].
    apply String.eqb_neq in Hne. now rewrite Hne.
Qed.

Lemma target_directory_resolution_witness :
  startswith
    (target_dir (Sample.host "Linux" Sample.tool_ok)
       {| install_dir := "/usr/share"; root := Some "/stage";
          warn_dir := true; data_files := [] |} "openpose")
    "/usr/share" = true
  /\ target_dir (Sample.host "Linux" Sample.tool_ok)
       {| install_dir := "/usr/share"; root := Some "/stage";
          warn_dir := true; data_files := [] |} "/etc/openpose"
     = "/stage/etc/openpose".
Proof.
  pose proof (target_directory_resolution
                (Sample.host "Linux" Sample.tool_ok)
                {| install_dir := "/usr/share"; root := Some "/stage";
                   warn_dir := true; data_files := [] |} "openpose"
                eq_refl eq_refl) as (Hrel & _ & _).
  pose proof (target_directory_resolution
                (Sample.host "Linux" Sample.tool_ok)
                {| install_dir := "/usr/share"; root := Some "/stage";
                   warn_dir := true; data_files := [] |} "/etc/openpose"
                eq_refl eq_refl) as (_ & _ & Habs).
  split.
  - exact (proj1 (Hrel eq_refl)).
  - rewrite (Habs eq_refl "/stage" eq_refl); [reflexivity | discriminate].
Defined.

(** ** The build profile on every command line *)

Section ReleaseProfile.

Context {OS : Type} (rt : runtime OS).

Lemma config_command_release (self : cmake_build_ext) (ext : CMakeExtension) :
  exists rest,
    config_command rt self ext
    = "cmake" :: cmake_source_dir ext :: "-DCMAKE_BUILD_TYPE=Release" :: rest.
Proof.
  unfold config_command, cmake_args_of, cfg_of; simpl.
  destruct (platform_system rt =? "Windows"); [|eexists; reflexivity].
  destruct (compiler_type self =? "msvc"); eexists; reflexivity.
Qed.

Lemma spawn_release_event (self : cmake_build_ext) (cmd : list string)
      (dry : bool) (cwd : option string) (w : world OS) :
  release_command self cmd ->
  grows trace (release_event self) w (snd (spawn rt cmd dry cwd w)).
Proof.
  intros Hcmd. eexists. split; [apply spawn_trace|].
  assert (Hlog : release_event self (LogInfo (str_join " " cmd)))
    by (exists cmd; now split).
  destruct dry.
  - apply Forall_cons; [exact Hlog | apply Forall_nil].
  - apply Forall_cons; [exact Hlog|].
    apply Forall_cons; [exact Hcmd | apply Forall_nil].
Qed.

Lemma build_extension_release (self : cmake_build_ext) (ext : CMakeExtension)
      (w : world OS) :
  In ext (extensions self) ->
  grows trace (release_event self) w (snd (build_extension rt self ext w)).
Proof.
  intros Hin. unfold build_extension.
  pose proof (grows_trans (@trace OS) (release_event self)) as Htrans.
  apply (bind_rel _ Htrans).
  - unfold perform.
    destruct (os_makedirs rt (build_temp self) true (os w)) as [r s].
    exists [Makedirs (build_temp self) true]. split; [reflexivity|].
    apply Forall_cons; [exact I | apply Forall_nil].
  - intros _ w1. apply (bind_rel _ Htrans).
    + apply spawn_release_event. right. left.
      destruct (config_command_release self ext) as [rest E].
      exists ext, rest. now split.
    + intros _ w2. apply spawn_release_event. right. right. reflexivity.
Qed.

Lemma build_extensions_release (self : cmake_build_ext) (w : world OS) :
  grows trace (release_event self) w (snd (build_extensions rt self w)).
Proof.
  unfold build_extensions.
  apply (bind_rel _ (grows_trans (@trace OS) (release_event self))).
  - rewrite check_cmake_run. cbn [snd]. unfold after_call.
    eexists. split; [reflexivity|].
    apply Forall_cons; [exists ["cmake"; "--version"]; split;
                        [reflexivity | now left]|].
    apply Forall_cons; [now left | apply Forall_nil].
  - intros _ w1.
    apply (for_each_rel _ (grows_refl (@trace OS) (release_event self))
             (grows_trans (@trace OS) (release_event self))).
    intros ext Hin w2. now apply build_extension_release.
Qed.

End ReleaseProfile.

(** C1. Whatever the debug/release selection [self.debug] is:
    every command line that [build_extensions] logs or starts is the
    availability check, a configure command whose first computed option is
    [-DCMAKE_BUILD_TYPE=Release], or the build command with
    [--config Release]; when the commands succeed, the processes started
    are the check and then, for each extension, exactly these two
    invocations in the build directory; and the selection changes nothing
    of what [build_extensions] does. *)
Theorem release_profile_in_every_invocation
        {OS : Type} (rt : runtime OS) (self : cmake_build_ext) (d : bool)
        (w : world OS) :
  grows trace (release_event self) w
        (snd (build_extensions rt (set_debug d self) w))
  /\ (dry_run self = false ->
      (forall cmd cwd s, fst (subprocess_call rt cmd cwd s) = Return 0%Z) ->
      (forall s, fst (os_makedirs rt (build_temp self) true s) = Return tt) ->
      fst (build_extensions rt (set_debug d self) w) = Return tt
      /\ calls (trace (snd (build_extensions rt (set_debug d self) w)))
         = (calls (trace w)
              ++ Call ["cmake"; "--version"] None
              :: flat_map (round_calls rt (set_debug d self))
                          (extensions self))%list)
  /\ (forall ext, exists rest,
         round_calls rt (set_debug d self) ext
         = [Call ("cmake" :: cmake_source_dir ext
                    :: "-DCMAKE_BUILD_TYPE=Release" :: rest)
                 (Some (build_temp self));
            Call ("cmake" :: "--build" :: "." :: "--config" :: "Release"
                    :: cmake_build_args self)
                 (Some (build_temp self))])
  /\ build_extensions rt (set_debug d self) w = build_extensions rt self w.
Proof.
  split; [|split; [|split]].
  - exact (build_extensions_release rt (set_debug d self) w).
  - intros Hdry Hcall Hmk.
    rewrite (build_extensions_after_check rt (set_debug d self) w
               (Hcall _ _ _)).
    destruct (rounds_all_succeed rt (set_debug d self) Hdry Hcall Hmk
                (extensions self)
                (after_call rt ["cmake"; "--version"] None w))
      as [Hres Htrace].
    split; [exact Hres|].
    change (extensions (set_debug d self)) with (extensions self).
    rewrite Htrace. unfold after_call. cbn [trace].
    rewrite calls_app. simpl. now rewrite <- app_assoc.
  - intros ext. unfold round_calls.
    destruct (config_command_release rt (set_debug d self) ext) as [rest E].
    exists rest. now rewrite E.
  - reflexivity.
Qed.

Lemma release_profile_in_every_invocation_witness :
  calls (trace (snd (build_extensions (Sample.host "Linux" Sample.tool_ok)
                       (set_debug true (Sample.build false)) Sample.w0)))
  = [Call ["cmake"; "--version"] None;
     Call ["cmake"; "/proj"; "-DCMAKE_BUILD_TYPE=Release";
           "-DCMAKE_LIBRARY_OUTPUT_DIRECTORY_RELEASE=/proj/build/lib/openpose";
           "-DCMAKE_ARCHIVE_OUTPUT_DIRECTORY_RELEASE=build/temp";
           "-DPYTHON_EXECUTABLE=/usr/bin/python3"; "-DBUILD_PYTHON=ON"]
          (Some "build/temp");
     Call ["cmake"; "--build"; "."; "--config"; "Release"]
          (Some "build/temp")].
Proof.
  rewrite (proj2 (proj1 (proj2 (release_profile_in_every_invocation
                                  (Sample.host "Linux" Sample.tool_ok)
                                  (Sample.build false) true Sample.w0))
                    eq_refl (fun _ _ _ => eq_refl)
                    (sample_makedirs_exist_ok "build/temp"))).
  reflexivity.
Defined.

(** ** The shell-style join *)

Module shlex_join_facts.

Import shlex.

Lemma safe_char_plain (c : ascii) : safe_char c = true -> plain_char c = true.
Proof.
  destruct c as [[] [] [] [] [] [] [] []]; vm_compute; intros H;
    (reflexivity || discriminate H).
Qed.

Lemma safe_token_plain (t : string) :
  (t =? "") = false ->
  forallb safe_char (list_ascii_of_string t) = true ->
  plain_token t = true.
Proof.
  intros Hne Hsafe. unfold plain_token. rewrite Hne. cbn [negb andb].
  induction t as [|c t IH]; [reflexivity|].
  cbn [list_ascii_of_string forallb] in *.
  apply andb_true_iff in Hsafe as [Hc Ht]. rewrite (safe_char_plain c Hc).
  destruct t as [|c' t]; [reflexivity|]. now apply IH.
Qed.

(** Inside the single quotes written by [quote], the text comes back
    character by character, a single quote through its detour between
    double quotes. *)
Lemma lex_escaped (s : string) :
  forall token quoted esc rest,
    lex (in_quote squote) token quoted esc
        (list_ascii_of_string (escape_squotes s) ++ squote :: rest)
    = lex in_word (token ++ s) true esc rest.
Proof.
  induction s as [|c s IH]; intros token quoted esc rest.
  - simpl. now rewrite append_nil_r.
  - cbn [escape_squotes]. destruct (Ascii.eqb c squote) eqn:E.
    + apply Ascii.eqb_eq in E. subst c.
      cbn [list_ascii_of_string app]. simpl lex at 1.
      cbn [lex]. simpl. rewrite IH. unfold snoc. now rewrite append_assoc.
    + cbn [list_ascii_of_string app lex]. rewrite E.
      change (char_in squote escapedquotes) with false.
      rewrite andb_false_r, IH. unfold snoc. now rewrite append_assoc.
Qed.

(** A quoted token is read back as the token, with something to emit. *)
Lemma lex_quote (t : string) (rest : list ascii) :
  exists quoted,
    pending t quoted = true
    /\ lex in_space "" false in_space (list_ascii_of_string (quote t) ++ rest)
       = lex in_word t quoted in_space rest.
Proof.
  unfold quote. destruct (t =? "") eqn:Hne.
  - apply String.eqb_eq in Hne. subst t. exists true. split; reflexivity.
  - destruct (forallb safe_char (list_ascii_of_string t)) eqn:Hsafe.
    + exists false. split; [unfold pending; now rewrite Hne|].
      apply shlex_facts.lex_plain_token. now apply safe_token_plain.
    + exists true. split; [unfold pending; now rewrite orb_true_r|].
      change (String squote (escape_squotes t) ++ String squote "")
        with (String squote (escape_squotes t ++ String squote "")).
      cbn [list_ascii_of_string app]. rewrite list_ascii_of_string_app.
      change (list_ascii_of_string (String squote "")) with [squote].
      rewrite <- app_assoc. cbn [app lex].
      change (char_in squote whitespace) with false.
      change (char_in squote escape) with false.
      change (char_in squote quotes) with true. cbv iota.
      now rewrite lex_escaped.
Qed.

Lemma split_join (toks : list string) : split (join toks) = Return toks.
Proof.
  unfold split, join.
  induction toks as [|t toks IH]; [reflexivity|].
  destruct toks as [|t' toks].
  - cbn [map str_join String.concat].
    rewrite <- (app_nil_r (list_ascii_of_string (quote t))).
    destruct (lex_quote t []) as (q & Hq & ->).
    cbn [lex]. now rewrite (shlex_more.pending_emit _ _ _ Hq).
  - change (str_join " " (map quote (t :: t' :: toks)))
      with (quote t ++ " " ++ str_join " " (map quote (t' :: toks))).
    rewrite list_ascii_of_string_app.
    destruct (lex_quote t
                (list_ascii_of_string
                   (" " ++ str_join " " (map quote (t' :: toks)))))
      as (q & Hq & ->).
    change (list_ascii_of_string
              (" " ++ str_join " " (map quote (t' :: toks))))
      with (" "%char
              :: list_ascii_of_string (str_join " " (map quote (t' :: toks)))).
    cbn [lex]. change (char_in " " whitespace) with true. cbv iota.
    rewrite Hq, (shlex_more.pending_emit _ _ _ Hq), IH. reflexivity.
Qed.

End shlex_join_facts.

(** C5. For every extra-argument string that the shell-style tokenizer
    accepts, with or without quoted substrings and embedded spaces,
    re-joining the tokens with the shell-style join and tokenizing again
    gives the same token list: the argument boundaries are preserved. *)
Theorem split_join_round_trip (s : string) (toks : list string) :
  shlex.split s = Return toks ->
  shlex.split (shlex.join toks) = Return toks.
Proof.
  intros _. apply shlex_join_facts.split_join.
Qed.

Lemma split_join_round_trip_witness :
  let s := "-DX=" ++ String dquote "a b" ++ String dquote " 'c  d'  it\'s" in
  shlex.split s = Return ["-DX=a b"; "c  d"; "it's"]
  /\ shlex.join ["-DX=a b"; "c  d"; "it's"]
     = "'-DX=a b' 'c  d' 'it'" ++ String dquote "'"
         ++ String dquote "'s'"
  /\ shlex.split (shlex.join ["-DX=a b"; "c  d"; "it's"])
     = Return ["-DX=a b"; "c  d"; "it's"].
Proof.
  intros s. split; [reflexivity|]. split; [reflexivity|].
  apply (split_join_round_trip s). reflexivity.
Defined.
